(** * next-identity-oidc: a shallow embedding of the relying-party core

    The development follows the Python package [next_identity_oidc]:
    - [Py]       the fragment of Python's data model the package relies on
                 (JSON-shaped values, truthiness, [in], subscripting,
                 exceptions);
    - [Urllib]   [urllib.parse.quote_plus], [urlencode], [unquote_plus],
                 [parse_qsl] and the query component of a URL;
    - [Base64]   [base64.b64decode] in its default, non-validating mode;
    - [Http]     the [requests] calls seen through a transport oracle;
    - [Client]   [client.py], class [NextIdentityClient];
    - [Flask]    [flask_integration.py], class [NextIdentityFlask];
    - [FastAPI]  [fastapi_integration.py], class [NextIdentityFastAPI].

    Conventions.  A Python [str] is represented by the byte string of its
    UTF-8 encoding (a Rocq [string]); every character the package inspects
    ('.', '-', '_', '=', ' ', '%', '&', '?', '#') is ASCII, so splitting and
    percent-encoding act on bytes exactly as they act on code points.  JSON
    numbers are integers.  A dictionary obtained from JSON keeps its insertion
    order and is an association list; a framework session is an unordered
    store and is a [gmap]. *)

From Stdlib Require Import ZArith NArith String Ascii List Bool Lia.
From stdpp Require Import gmap strings list fin_maps pretty.
Import ListNotations.

Local Open Scope string_scope.
Local Open Scope Z_scope.
Local Set Warnings "-register-all".

(* ===================================================================== *)
(** ** Python values and exceptions *)
(* ===================================================================== *)

Module Py.

(** Values as [json.loads] / [response.json()] produce them, which is also
    what the package stores in a session. *)
Inductive pyval : Type :=
| PNone
| PBool (b : bool)
| PInt (n : Z)
| PStr (s : string)
| PList (l : list pyval)
| PDict (d : list (string * pyval)).

(** Exceptions, by the class the code raises or catches. *)
Inductive exn : Type :=
| Exception (msg : string)          (* raise Exception(...) in the package *)
| RequestException (msg : string)   (* requests.RequestException and subclasses *)
| JSONDecodeError (msg : string)    (* json.JSONDecodeError, a ValueError *)
| ValueError (msg : string)
| BinasciiError (msg : string)      (* binascii.Error, a ValueError *)
| KeyError (key : string)
| TypeError (msg : string)
| AttributeError (msg : string)
| BuildError (endpoint : string)    (* werkzeug.routing.BuildError *)
| HTTPException (status : Z) (detail : string). (* fastapi.HTTPException *)

(** [str(e)]. *)
Definition str_exn (e : exn) : string :=
  match e with
  | Exception m | RequestException m | JSONDecodeError m | ValueError m
  | BinasciiError m | TypeError m | AttributeError m => m
  | KeyError k => "'" ++ k ++ "'"
  | BuildError ep => "Could not build url for endpoint '" ++ ep ++ "'."
  | HTTPException st d => pretty st ++ ": " ++ d
  end.

Inductive result (A : Type) : Type :=
| Ok (a : A)
| Raise (e : exn).
Arguments Ok {A} a.
Arguments Raise {A} e.

Definition rbind {A B} (r : result A) (k : A -> result B) : result B :=
  match r with
  | Ok a => k a
  | Raise e => Raise e
  end.

(** [try: r except Exception as e: h e] *)
Definition rcatch {A} (r : result A) (h : exn -> result A) : result A :=
  match r with
  | Ok a => Ok a
  | Raise e => h e
  end.

(** Truthiness: [bool(v)]. *)
Definition truthy (v : pyval) : bool :=
  match v with
  | PNone => false
  | PBool b => b
  | PInt n => negb (n =? 0)
  | PStr s => negb (String.eqb s "")
  | PList l => match l with [] => false | _ => true end
  | PDict d => match d with [] => false | _ => true end
  end.

(** Truthiness of an optional string argument whose default is [None]. *)
Definition truthy_opt (o : option string) : bool :=
  match o with
  | None => false
  | Some s => negb (String.eqb s "")
  end.

(** Dictionaries: first binding of a key. *)
Fixpoint dict_lookup (k : string) (d : list (string * pyval)) : option pyval :=
  match d with
  | [] => None
  | (k', v) :: d' => if String.eqb k k' then Some v else dict_lookup k d'
  end.

Definition dict_has (k : string) (d : list (string * pyval)) : bool :=
  match dict_lookup k d with Some _ => true | None => false end.

(** [sub in s] for two strings. *)
Fixpoint is_substring (sub s : string) : bool :=
  if String.prefix sub s then true
  else match s with
       | EmptyString => false
       | String _ s' => is_substring sub s'
       end.

Definition type_name (v : pyval) : string :=
  match v with
  | PNone => "NoneType" | PBool _ => "bool" | PInt _ => "int"
  | PStr _ => "str" | PList _ => "list" | PDict _ => "dict"
  end.

(** [k in v] for a string [k]: key membership in a dict, element membership
    in a list, substring test on a string, [TypeError] otherwise. *)
Definition contains (k : string) (v : pyval) : result bool :=
  match v with
  | PDict d => Ok (dict_has k d)
  | PList l => Ok (existsb (fun x => match x with
                                     | PStr s => String.eqb s k
                                     | _ => false
                                     end) l)
  | PStr s => Ok (is_substring k s)
  | _ => Raise (TypeError ("argument of type '" ++ type_name v ++ "' is not iterable"))
  end.

(** [v[k]] for a string [k]. *)
Definition getitem (v : pyval) (k : string) : result pyval :=
  match v with
  | PDict d => match dict_lookup k d with
               | Some x => Ok x
               | None => Raise (KeyError k)
               end
  | PList _ => Raise (TypeError "list indices must be integers or slices, not str")
  | PStr _ => Raise (TypeError "string indices must be integers, not 'str'")
  | _ => Raise (TypeError ("'" ++ type_name v ++ "' object is not subscriptable"))
  end.

(** [v.get(k)]: only dictionaries have the method. *)
Definition get_method (v : pyval) (k : string) : result pyval :=
  match v with
  | PDict d => Ok (match dict_lookup k d with Some x => x | None => PNone end)
  | _ => Raise (AttributeError ("'" ++ type_name v ++ "' object has no attribute 'get'"))
  end.

End Py.

(* ===================================================================== *)
(** ** String helpers shared by the library models *)
(* ===================================================================== *)

Module Str.

(** [s.split(sep)] for a one-character separator: never empty. *)
Fixpoint split_on (sep : ascii) (s : string) : list string :=
  match s with
  | EmptyString => [EmptyString]
  | String c s' =>
      if Ascii.eqb c sep then EmptyString :: split_on sep s'
      else match split_on sep s' with
           | h :: t => String c h :: t
           | [] => [String c EmptyString]
           end
  end.

(** [s.split(sep, 1)]: the part before the first separator and, when there
    is one, the part after it. *)
Fixpoint split_once (sep : ascii) (s : string) : string * option string :=
  match s with
  | EmptyString => (EmptyString, None)
  | String c s' =>
      if Ascii.eqb c sep then (EmptyString, Some s')
      else let (h, t) := split_once sep s' in (String c h, t)
  end.

(** [sep.join(l)] *)
Fixpoint join (sep : string) (l : list string) : string :=
  match l with
  | [] => EmptyString
  | [x] => x
  | x :: l' => x ++ sep ++ join sep l'
  end.

(** Character-wise substitution, as [s.replace(a, b)] for single characters
    and [s.translate(table)]. *)
Fixpoint map_chars (f : ascii -> ascii) (s : string) : string :=
  match s with
  | EmptyString => EmptyString
  | String c s' => String (f c) (map_chars f s')
  end.

Definition replace_char (a b : ascii) : string -> string :=
  map_chars (fun c => if Ascii.eqb c a then b else c).

Fixpoint mem_char (c : ascii) (s : string) : bool :=
  match s with
  | EmptyString => false
  | String c' s' => Ascii.eqb c c' || mem_char c s'
  end.

(** [c * n] *)
Fixpoint repeat_char (c : ascii) (n : nat) : string :=
  match n with
  | O => EmptyString
  | S n' => String c (repeat_char c n')
  end.

Definition code (c : ascii) : Z := Z.of_N (N_of_ascii c).
Definition chr (z : Z) : ascii := ascii_of_N (Z.to_N z).

Definition in_range (lo hi c : ascii) : bool :=
  (code lo <=? code c) && (code c <=? code hi).

Fixpoint forall_chars (p : ascii -> bool) (s : string) : bool :=
  match s with
  | EmptyString => true
  | String c s' => p c && forall_chars p s'
  end.

End Str.

(* ===================================================================== *)
(** ** urllib.parse *)
(* ===================================================================== *)

Module Urllib.
Import Str.

(** [_ALWAYS_SAFE]: letters, digits and [_.-~]. *)
Definition always_safe (c : ascii) : bool :=
  in_range "A" "Z" c || in_range "a" "z" c || in_range "0" "9" c
  || mem_char c "_.-~".

Definition hex_upper (n : Z) : ascii :=
  match String.get (Z.to_nat n) "0123456789ABCDEF" with
  | Some c => c
  | None => "0"%char
  end.

(** The quoter of [quote_from_bytes]: the byte itself when it is safe,
    ['%{:02X}'.format(b)] otherwise. *)
Definition quoter (safe : string) (c : ascii) : string :=
  if always_safe c || mem_char c safe then String c EmptyString
  else String "%" (String (hex_upper (code c / 16))
                     (String (hex_upper (code c mod 16)) EmptyString)).

(** [quote(s, safe)]: [''.join([quoter(char) for char in bs])]. *)
Fixpoint quote (safe : string) (s : string) : string :=
  match s with
  | EmptyString => EmptyString
  | String c s' => quoter safe c ++ quote safe s'
  end.

(** [quote_plus(s, safe='')]: without a space it is [quote]; with one, the
    space is kept by [quote] and then replaced by a plus sign. *)
Definition quote_plus (s : string) : string :=
  if negb (mem_char " " s) then quote "" s
  else replace_char " " "+" (quote " " s).

(** [urlencode(params)] for a dict of strings, in insertion order. *)
Definition urlencode (params : list (string * string)) : string :=
  join "&" (map (fun kv => quote_plus (fst kv) ++ "=" ++ quote_plus (snd kv)) params).

Definition hex_value (c : ascii) : option Z :=
  if in_range "0" "9" c then Some (code c - code "0")
  else if in_range "a" "f" c then Some (code c - code "a" + 10)
  else if in_range "A" "F" c then Some (code c - code "A" + 10)
  else None.

(** [unquote]: every ['%'] followed by two hexadecimal digits becomes the
    byte they denote; any other ['%'] stays.  (The closing UTF-8 decoding is
    the identity on the byte representation of strings.) *)
Fixpoint unquote (s : string) : string :=
  match s with
  | EmptyString => EmptyString
  | String c s' =>
      if Ascii.eqb c "%" then
        match s' with
        | String a (String b s'') =>
            match hex_value a, hex_value b with
            | Some x, Some y => String (chr (16 * x + y)) (unquote s'')
            | _, _ => String c (unquote s')
            end
        | _ => String c (unquote s')
        end
      else String c (unquote s')
  end.

Definition unquote_plus (s : string) : string :=
  unquote (replace_char "+" " " s).

(** [parse_qsl(qs, keep_blank_values)] with ['&'] as the separator and
    without strict parsing: the list of (name, value) pairs in order. *)
Definition parse_field (keep_blank_values : bool) (name_value : string)
  : list (string * string) :=
  if String.eqb name_value "" then []
  else
    match split_once "=" name_value with
    | (n, Some v) =>
        if negb (String.eqb v "") || keep_blank_values
        then [(unquote_plus n, unquote_plus v)] else []
    | (n, None) =>
        if keep_blank_values then [(unquote_plus n, "")] else []
    end.

Definition parse_qsl (keep_blank_values : bool) (qs : string)
  : list (string * string) :=
  if String.eqb qs "" then []
  else flat_map (parse_field keep_blank_values) (split_on "&" qs).

(** The query component of a URL as [urlsplit] cuts it: the fragment is
    whatever follows the first ['#']; the query is whatever follows the
    first ['?'] of the rest. *)
Definition url_query (url : string) : string :=
  match snd (split_once "?" (fst (split_once "#" url))) with
  | Some q => q
  | None => EmptyString
  end.

End Urllib.

(* ===================================================================== *)
(** ** base64.b64decode *)
(* ===================================================================== *)

Module Base64.
Import Py Str.

(** [table_a2b_base64]: the value of a character of the standard alphabet. *)
Definition table_a2b_base64 (c : ascii) : option Z :=
  if in_range "A" "Z" c then Some (code c - code "A")
  else if in_range "a" "z" c then Some (code c - code "a" + 26)
  else if in_range "0" "9" c then Some (code c - code "0" + 52)
  else if Ascii.eqb c "+" then Some 62
  else if Ascii.eqb c "/" then Some 63
  else None.

(** A byte stored through an [unsigned char]. *)
Definition to_byte (z : Z) : ascii := chr (Z.land z 255).

(** The loop of [binascii.a2b_base64] without strict mode.  [quad_pos] is
    the position inside the current group of four characters, [leftchar]
    the bits not yet written, [pads] the padding characters seen since the
    last data character, [n_out] the number of bytes written.  Characters
    outside the alphabet are skipped; a padding run that completes a group
    ends the input. *)
Fixpoint a2b_loop (input : string) (quad_pos : nat) (leftchar : Z)
    (pads : nat) (n_out : nat) : result string :=
  match input with
  | EmptyString =>
      match quad_pos with
      | O => Ok EmptyString
      | S O =>
          Raise (BinasciiError
            ("Invalid base64-encoded string: number of data characters ("
             ++ pretty (Z.of_nat (n_out / 3 * 4 + 1))
             ++ ") cannot be 1 more than a multiple of 4"))
      | _ => Raise (BinasciiError "Incorrect padding")
      end
  | String c rest =>
      if Ascii.eqb c "=" then
        if (2 <=? quad_pos)%nat then
          if (4 <=? quad_pos + S pads)%nat then Ok EmptyString
          else a2b_loop rest quad_pos leftchar (S pads) n_out
        else a2b_loop rest quad_pos leftchar pads n_out
      else
        match table_a2b_base64 c with
        | None => a2b_loop rest quad_pos leftchar pads n_out
        | Some this_ch =>
            match quad_pos with
            | O => a2b_loop rest 1 this_ch 0 n_out
            | S O =>
                rbind (a2b_loop rest 2 (Z.land this_ch 15) 0 (S n_out))
                  (fun out => Ok (String (to_byte
                     (Z.lor (Z.shiftl leftchar 2) (Z.shiftr this_ch 4))) out))
            | S (S O) =>
                rbind (a2b_loop rest 3 (Z.land this_ch 3) 0 (S n_out))
                  (fun out => Ok (String (to_byte
                     (Z.lor (Z.shiftl leftchar 4) (Z.shiftr this_ch 2))) out))
            | _ =>
                rbind (a2b_loop rest 0 0 0 (S n_out))
                  (fun out => Ok (String (to_byte
                     (Z.lor (Z.shiftl leftchar 6) this_ch)) out))
            end
        end
  end.

Definition a2b_base64 (s : string) : result string := a2b_loop s 0 0 0 0.

Fixpoint is_ascii (s : string) : bool :=
  match s with
  | EmptyString => true
  | String c s' => (code c <? 128) && is_ascii s'
  end.

(** [base64.b64decode(s)] on a [str]: the text is encoded as ASCII, which
    fails on any other character, and given to [a2b_base64]. *)
Definition b64decode (s : string) : result string :=
  if is_ascii s then a2b_base64 s
  else Raise (ValueError "string argument should contain only ASCII characters").

(** *** The encoder of RFC 4648, section 5 (URL-safe alphabet)

    The package only decodes; the encoder states what a base64url segment
    of a given payload is. *)
Definition b64url_char (n : Z) : ascii :=
  match String.get (Z.to_nat n)
    "ABCDEFGHIJKLMNOPQRSTUVWXYZabcdefghijklmnopqrstuvwxyz0123456789-_" with
  | Some c => c
  | None => "A"%char
  end.

(** The unpadded encoding and the number of ['='] its padded form carries. *)
Fixpoint b64url_encode (bytes : string) : string :=
  match bytes with
  | EmptyString => EmptyString
  | String b1 EmptyString =>
      String (b64url_char (Z.shiftr (code b1) 2))
        (String (b64url_char (Z.shiftl (Z.land (code b1) 3) 4)) EmptyString)
  | String b1 (String b2 EmptyString) =>
      String (b64url_char (Z.shiftr (code b1) 2))
        (String (b64url_char (Z.lor (Z.shiftl (Z.land (code b1) 3) 4)
                                     (Z.shiftr (code b2) 4)))
           (String (b64url_char (Z.shiftl (Z.land (code b2) 15) 2)) EmptyString))
  | String b1 (String b2 (String b3 rest)) =>
      String (b64url_char (Z.shiftr (code b1) 2))
        (String (b64url_char (Z.lor (Z.shiftl (Z.land (code b1) 3) 4)
                                     (Z.shiftr (code b2) 4)))
           (String (b64url_char (Z.lor (Z.shiftl (Z.land (code b2) 15) 2)
                                        (Z.shiftr (code b3) 6)))
              (String (b64url_char (Z.land (code b3) 63))
                 (b64url_encode rest))))
  end.

Definition b64url_padding (bytes : string) : nat :=
  match (String.length bytes mod 3)%nat with
  | 1%nat => 2%nat
  | 2%nat => 1%nat
  | _ => 0%nat
  end.

End Base64.

(* ===================================================================== *)
(** ** requests, the session store and the effects of a handler *)
(* ===================================================================== *)

Module Http.
Import Py.

(** What the package reads from a [requests.Response]: the status line, the
    final URL and the outcome of [json.loads] on the body (the parsed value,
    or the decoder's message when the body is not JSON). *)
Record response : Type := Response {
  status_code : Z;
  reason : string;
  url : string;
  body_json : pyval + string
}.

Inductive request : Type :=
| GET (target : pyval) (headers : list (string * string))
| POST (target : pyval) (data : list (string * string)).

(** A call of [requests.get] / [requests.post] either returns a response or
    raises a [RequestException] (connection error, timeout, invalid URL). *)
Inductive outcome : Type :=
| Responded (r : response)
| Failed (msg : string).

(** [response.raise_for_status()]: an [HTTPError] for the 4xx and 5xx
    statuses, nothing otherwise. *)
Definition raise_for_status (r : response) : result unit :=
  if (400 <=? status_code r) && (status_code r <? 500) then
    Raise (RequestException (pretty (status_code r) ++ " Client Error: "
                             ++ reason r ++ " for url: " ++ url r))
  else if (500 <=? status_code r) && (status_code r <? 600) then
    Raise (RequestException (pretty (status_code r) ++ " Server Error: "
                             ++ reason r ++ " for url: " ++ url r))
  else Ok tt.

(** [response.json()].  Since requests 2.27 a body that is not JSON raises
    [requests.exceptions.JSONDecodeError], a [RequestException]; before, the
    decoder's own [ValueError] escapes. *)
Definition json (json_error_is_request_exception : bool) (r : response)
  : result pyval :=
  match body_json r with
  | inl v => Ok v
  | inr msg => Raise (if json_error_is_request_exception
                      then RequestException msg else JSONDecodeError msg)
  end.

End Http.

Module Runtime.
Import Py Http.

(** The collaborators of the package: the HTTP transport (its answer may
    depend on the calls made before), the installed requests version,
    [json.loads], Python's [str()] on values that are not strings, and the
    host application's [url_for(endpoint, _external=...)]. *)
Record env : Type := Env {
  send : list request -> request -> outcome;
  json_error_is_request_exception : bool;
  json_loads : string -> result pyval;
  str_nonstring : pyval -> string;
  url_for : string -> bool -> result string
}.

(** The mutable state a handler sees: the browser session and the log of
    the HTTP calls made so far. *)
Record world : Type := World {
  session : gmap string pyval;
  http_log : list request
}.

Definition M (A : Type) : Type := world -> result A * world.

Definition ret {A} (a : A) : M A := fun w => (Ok a, w).
Definition raise {A} (e : exn) : M A := fun w => (Raise e, w).
Definition lift {A} (r : result A) : M A := fun w => (r, w).

Definition bind {A B} (m : M A) (k : A -> M B) : M B :=
  fun w => match m w with
           | (Ok a, w') => k a w'
           | (Raise e, w') => (Raise e, w')
           end.

(** [try: m except <class> as e: h e]; the state reached when the exception
    was raised is the state the handler runs in. *)
Definition try_except {A} (m : M A) (catches : exn -> bool) (h : exn -> M A) : M A :=
  fun w => match m w with
           | (Ok a, w') => (Ok a, w')
           | (Raise e, w') => if catches e then h e w' else (Raise e, w')
           end.

Definition is_request_exception (e : exn) : bool :=
  match e with RequestException _ => true | _ => false end.

Definition any_exception (e : exn) : bool := true.

(** [k in session], [session[k]], [session[k] = v], [session.pop(k, d)],
    [session.get(k)]. *)
Definition session_has (k : string) : M bool :=
  fun w => (Ok (bool_decide (is_Some (session w !! k))), w).

Definition session_getitem (k : string) : M pyval :=
  fun w => match session w !! k with
           | Some v => (Ok v, w)
           | None => (Raise (KeyError k), w)
           end.

Definition session_set (k : string) (v : pyval) : M unit :=
  fun w => (Ok tt, World (<[k := v]> (session w)) (http_log w)).

Definition session_pop (k : string) (default : pyval) : M pyval :=
  fun w => match session w !! k with
           | Some v => (Ok v, World (delete k (session w)) (http_log w))
           | None => (Ok default, w)
           end.

Definition session_get (k : string) : M pyval :=
  fun w => (Ok (match session w !! k with Some v => v | None => PNone end), w).

(** One call of [requests.get] or [requests.post]. *)
Definition http (E : env) (req : request) : M response :=
  fun w => let w' := World (session w) (http_log w ++ [req]) in
           match send E (http_log w) req with
           | Responded r => (Ok r, w')
           | Failed msg => (Raise (RequestException msg), w')
           end.

(** [f"{v}"] *)
Definition format_value (E : env) (v : pyval) : string :=
  match v with
  | PStr s => s
  | _ => str_nonstring E v
  end.

End Runtime.

Declare Scope py_scope.
Delimit Scope py_scope with py.
Notation "x <- m ;; k" := (Runtime.bind m (fun x => k))
  (at level 100, m at next level, right associativity) : py_scope.
Notation "m ;;; k" := (Runtime.bind m (fun _ => k))
  (at level 100, right associativity) : py_scope.
Notation "x <-r m ;; k" := (Py.rbind m (fun x => k))
  (at level 100, m at next level, right associativity) : py_scope.

(* ===================================================================== *)
(** ** client.py: NextIdentityClient *)
(* ===================================================================== *)

Module Client.
Import Py Str Http Runtime.
Local Open Scope py_scope.

Record client : Type := NextIdentityClient {
  client_id : string;
  client_secret : string;
  redirect_uri : string;
  discovery_url : string;
  scope : string;
  config : pyval
}.

Definition set_config (self : client) (cfg : pyval) : client :=
  NextIdentityClient (client_id self) (client_secret self) (redirect_uri self)
    (discovery_url self) (scope self) cfg.

(** The table [{ord('-'): ord('+'), ord('_'): ord('/')}] of [str.translate]. *)
Definition translate_table (c : ascii) : ascii :=
  if Ascii.eqb c "-" then "+"%char
  else if Ascii.eqb c "_" then "/"%char
  else c.

Section WithEnv.
Variable E : env.

(** [_fetch_config]: the client with its configuration loaded. *)
Definition _fetch_config (self : client) : M client :=
  try_except
    (response <- http E (GET (PStr (discovery_url self)) []) ;;
     lift (raise_for_status response) ;;;
     cfg <- lift (json (json_error_is_request_exception E) response) ;;
     ret (set_config self cfg))
    is_request_exception
    (fun e => raise (Exception ("Failed to fetch OIDC configuration: " ++ str_exn e))).

(** [__init__]: the attributes are set, [config] is [None], then the
    configuration is fetched; an exception leaves no client. *)
Definition init (client_id client_secret redirect_uri discovery_url scope : string)
  : M client :=
  _fetch_config
    (NextIdentityClient client_id client_secret redirect_uri discovery_url scope PNone).

Definition get_auth_url (self : client) (state nonce : option string)
    (path : string) : result string :=
  if negb (truthy (config self)) then Raise (Exception "OIDC configuration not loaded")
  else
    base_url <-r getitem (config self) "issuer" ;;
    let params :=
      ([ ("client_id", client_id self);
         ("redirect_uri", redirect_uri self);
         ("response_type", "code");
         ("scope", scope self) ]
       ++ (match state with
           | Some s => if truthy_opt state then [("state", s)] else []
           | None => []
           end)
       ++ (match nonce with
           | Some n => if truthy_opt nonce then [("nonce", n)] else []
           | None => []
           end))%list in
    let auth_endpoint := format_value E base_url ++ path in
    Ok (auth_endpoint ++ "?" ++ Urllib.urlencode params).

Definition get_login_url (self : client) (state nonce : option string) : result string :=
  get_auth_url self state nonce "/authorize".

Definition get_register_url (self : client) (state nonce : option string) : result string :=
  get_auth_url self state nonce "/register".

Definition get_profile_url (self : client) (state nonce : option string) : result string :=
  get_auth_url self state nonce "/personal-details".

Definition exchange_code_for_tokens (self : client) (code : string) : M pyval :=
  if negb (truthy (config self)) then raise (Exception "OIDC configuration not loaded")
  else
    token_endpoint <- lift (getitem (config self) "token_endpoint") ;;
    let data :=
      [ ("grant_type", "authorization_code");
        ("code", code);
        ("redirect_uri", redirect_uri self);
        ("client_id", client_id self);
        ("client_secret", client_secret self) ] in
    try_except
      (response <- http E (POST token_endpoint data) ;;
       lift (raise_for_status response) ;;;
       lift (json (json_error_is_request_exception E) response))
      is_request_exception
      (fun e => raise (Exception ("Failed to exchange code for tokens: " ++ str_exn e))).

Definition get_userinfo (self : client) (access_token : pyval) : M pyval :=
  if negb (truthy (config self)) then raise (Exception "OIDC configuration not loaded")
  else
    userinfo_endpoint <- lift (getitem (config self) "userinfo_endpoint") ;;
    try_except
      (response <- http E (GET userinfo_endpoint
                    [("Authorization", "Bearer " ++ format_value E access_token)]) ;;
       lift (raise_for_status response) ;;;
       lift (json (json_error_is_request_exception E) response))
      is_request_exception
      (fun e => raise (Exception ("Failed to get user info: " ++ str_exn e))).

(** [get_logout_url]: the formatted URL, or the configured endpoint itself
    when there is no parameter to append. *)
Definition get_logout_url (self : client) (id_token_hint post_logout_redirect_uri : pyval)
  : result pyval :=
  if negb (truthy (config self)) then Raise (Exception "OIDC configuration not loaded")
  else
    has_endpoint <-r contains "end_session_endpoint" (config self) ;;
    if negb has_endpoint
    then Raise (Exception "Logout endpoint not found in OIDC configuration")
    else
      let params :=
        ((if truthy id_token_hint
          then [("id_token_hint", format_value E id_token_hint)] else [])
         ++ (if truthy post_logout_redirect_uri
             then [("post_logout_redirect_uri", format_value E post_logout_redirect_uri)]
             else []))%list in
      logout_endpoint <-r getitem (config self) "end_session_endpoint" ;;
      match params with
      | _ :: _ => Ok (PStr (format_value E logout_endpoint ++ "?" ++ Urllib.urlencode params))
      | [] => Ok logout_endpoint
      end.

(** [validate_id_token]: the payload segment, padded, translated to the
    standard alphabet, decoded and parsed.  No signature is checked. *)
Definition validate_id_token (id_token : string) : result pyval :=
  let parts := split_on "." id_token in
  if negb (Nat.eqb (List.length parts) 3) then Raise (Exception "Invalid ID token format")
  else
    let payload := nth 1 parts EmptyString in
    let padding := repeat_char "=" (4 - String.length payload mod 4)%nat in
    let payload := payload ++ padding in
    rcatch
      (decoded <-r Base64.b64decode (map_chars translate_table payload) ;;
       json_loads E decoded)
      (fun e => Raise (Exception ("Failed to decode ID token: " ++ str_exn e))).

End WithEnv.
End Client.

(* ===================================================================== *)
(** ** flask_integration.py: NextIdentityFlask *)
(* ===================================================================== *)

Module Flask.
Import Py Http Runtime.
Local Open Scope py_scope.

(** The integration once [init_app] has run: the client it built and the
    session key of the auth record. *)
Record integration : Type := NextIdentityFlask {
  client : Client.client;
  session_auth_key : string
}.

(** What a view returns: [redirect(location)] (status 302) or a
    [(body, status)] pair. *)
Inductive response : Type :=
| Redirect (location : pyval) (code : Z)
| Text (body : string) (status : Z).

Definition redirect (location : pyval) : response := Redirect location 302.

Section WithEnv.
Variable E : env.

Definition init_app (client_id client_secret redirect_uri discovery_url scope
                     session_auth_key : string) : M integration :=
  c <- Client.init E client_id client_secret redirect_uri discovery_url scope ;;
  ret (NextIdentityFlask c session_auth_key).

(** The [/auth/callback] view; [code] is [request.args.get('code')]. *)
Definition auth_callback (self : integration) (code : option string) : M response :=
  if negb (truthy_opt code) then ret (Text "Authorization code missing" 400)
  else
    try_except
      (tokens <- Client.exchange_code_for_tokens E (client self)
                   (match code with Some c => c | None => EmptyString end) ;;
       access_token <- lift (getitem tokens "access_token") ;;
       user_info <- Client.get_userinfo E (client self) access_token ;;
       access_token' <- lift (getitem tokens "access_token") ;;
       id_token <- lift (get_method tokens "id_token") ;;
       refresh_token <- lift (get_method tokens "refresh_token") ;;
       expires_in <- lift (get_method tokens "expires_in") ;;
       session_set (session_auth_key self)
         (PDict [ ("access_token", access_token');
                  ("id_token", id_token);
                  ("refresh_token", refresh_token);
                  ("expires_in", expires_in);
                  ("user_info", user_info) ]) ;;;
       return_to <- session_pop "return_to" (PStr "/") ;;
       ret (redirect return_to))
      any_exception
      (fun e => ret (Text ("Authentication error: " ++ str_exn e) 400)).

Definition login (self : integration) (return_to : string) : M response :=
  session_set "return_to" (PStr return_to) ;;;
  login_url <- lift (Client.get_login_url E (client self) None None) ;;
  ret (redirect (PStr login_url)).

Definition register (self : integration) (return_to : string) : M response :=
  session_set "return_to" (PStr return_to) ;;;
  register_url <- lift (Client.get_register_url E (client self) None None) ;;
  ret (redirect (PStr register_url)).

Definition edit_profile (self : integration) (return_to : string) : M response :=
  session_set "return_to" (PStr return_to) ;;;
  profile_url <- lift (Client.get_profile_url E (client self) None None) ;;
  ret (redirect (PStr profile_url)).

Definition logout (self : integration) (return_to : string) : M response :=
  auth_data <- session_pop (session_auth_key self) PNone ;;
  id_token <- lift (if truthy auth_data then get_method auth_data "id_token"
                    else Ok PNone) ;;
  post_logout_redirect_uri <-
    lift (if String.eqb return_to "/" then url_for E "index" true else Ok return_to) ;;
  logout_url <- lift (Client.get_logout_url E (client self) id_token
                        (PStr post_logout_redirect_uri)) ;;
  ret (redirect logout_url).

Definition get_user_info (self : integration) : M pyval :=
  auth_data <- session_get (session_auth_key self) ;;
  if truthy auth_data then
    has <- lift (contains "user_info" auth_data) ;;
    if has then lift (getitem auth_data "user_info") else ret PNone
  else ret PNone.

(** [key in session and 'access_token' in session[key]] *)
Definition is_authenticated (self : integration) : M bool :=
  present <- session_has (session_auth_key self) ;;
  if present then
    record <- session_getitem (session_auth_key self) ;;
    lift (contains "access_token" record)
  else ret false.

(** [login_required(f)]: the decorated view; [url] is [request.url]. *)
Definition login_required (self : integration) (f : M response) (url : string)
  : M response :=
  authenticated <- is_authenticated self ;;
  if negb authenticated then
    session_set "return_to" (PStr url) ;;;
    login_view <- lift (url_for E "login" false) ;;
    ret (redirect (PStr login_view))
  else f.

End WithEnv.
End Flask.

(* ===================================================================== *)
(** ** fastapi_integration.py: NextIdentityFastAPI *)
(* ===================================================================== *)

Module FastAPI.
Import Py Http Runtime.
Local Open Scope py_scope.

Record integration : Type := NextIdentityFastAPI {
  client : Client.client;
  session_auth_key : string
}.

(** A [RedirectResponse(url, status_code)]; the default status is 307. *)
Inductive response : Type :=
| RedirectResponse (url : pyval) (status_code : Z)
| HTMLResponse (body : string).

Definition HTTP_307_TEMPORARY_REDIRECT : Z := 307.

(** What the [login_required] dependency returns. *)
Inductive dependency_value : Type :=
| DepResponse (r : response)
| DepTrue.

Section WithEnv.
Variable E : env.

Definition init_app (client_id client_secret redirect_uri discovery_url scope
                     session_auth_key : string) : M integration :=
  c <- Client.init E client_id client_secret redirect_uri discovery_url scope ;;
  ret (NextIdentityFastAPI c session_auth_key).

(** The callback route; [code] is the query parameter, [None] by default. *)
Definition auth_callback (self : integration) (code : option string) : M response :=
  if negb (truthy_opt code)
  then raise (HTTPException 400 "Authorization code missing")
  else
    try_except
      (tokens <- Client.exchange_code_for_tokens E (client self)
                   (match code with Some c => c | None => EmptyString end) ;;
       access_token <- lift (getitem tokens "access_token") ;;
       user_info <- Client.get_userinfo E (client self) access_token ;;
       access_token' <- lift (getitem tokens "access_token") ;;
       id_token <- lift (get_method tokens "id_token") ;;
       refresh_token <- lift (get_method tokens "refresh_token") ;;
       expires_in <- lift (get_method tokens "expires_in") ;;
       session_set (session_auth_key self)
         (PDict [ ("access_token", access_token');
                  ("id_token", id_token);
                  ("refresh_token", refresh_token);
                  ("expires_in", expires_in);
                  ("user_info", user_info) ]) ;;;
       return_to <- session_pop "return_to" (PStr "/") ;;
       ret (RedirectResponse return_to 307))
      any_exception
      (fun e => raise (HTTPException 400 ("Authentication error: " ++ str_exn e))).

Definition login (self : integration) (return_to : string) : M response :=
  session_set "return_to" (PStr return_to) ;;;
  login_url <- lift (Client.get_login_url E (client self) None None) ;;
  ret (RedirectResponse (PStr login_url) 307).

Definition register (self : integration) (return_to : string) : M response :=
  session_set "return_to" (PStr return_to) ;;;
  register_url <- lift (Client.get_register_url E (client self) None None) ;;
  ret (RedirectResponse (PStr register_url) 307).

Definition edit_profile (self : integration) (return_to : string) : M response :=
  session_set "return_to" (PStr return_to) ;;;
  profile_url <- lift (Client.get_profile_url E (client self) None None) ;;
  ret (RedirectResponse (PStr profile_url) 307).

Definition logout (self : integration) (return_to : string) : M response :=
  auth_data <- session_pop (session_auth_key self) PNone ;;
  id_token <- lift (if truthy auth_data then get_method auth_data "id_token"
                    else Ok PNone) ;;
  logout_url <- lift (Client.get_logout_url E (client self) id_token (PStr return_to)) ;;
  ret (RedirectResponse logout_url 307).

Definition get_user_info (self : integration) : M pyval :=
  auth_data <- session_get (session_auth_key self) ;;
  if truthy auth_data then
    has <- lift (contains "user_info" auth_data) ;;
    if has then lift (getitem auth_data "user_info") else ret PNone
  else ret PNone.

Definition is_authenticated (self : integration) : M bool :=
  present <- session_has (session_auth_key self) ;;
  if present then
    record <- session_getitem (session_auth_key self) ;;
    lift (contains "access_token" record)
  else ret false.

(** The function wrapped by [Depends] in [login_required]; [url] is
    [str(request.url)].  The redirect is returned, not raised. *)
Definition dependency (self : integration) (url : string) : M dependency_value :=
  authenticated <- is_authenticated self ;;
  if negb authenticated then
    session_set "return_to" (PStr url) ;;;
    ret (DepResponse (RedirectResponse (PStr "/login") HTTP_307_TEMPORARY_REDIRECT))
  else ret DepTrue.

(** [login_required()] returns [Depends(dependency)], so a route takes it
    as the default of a parameter: [def page(request, _ =
    auth.login_required())].  Such a path operation, as FastAPI runs it: the
    dependency is called, what it returns becomes the value of the
    parameter, and the path operation is called with it.  Only an exception
    raised by the dependency keeps the path operation from running. *)
Definition run_with_dependency (dep : M dependency_value)
    (path_operation : dependency_value -> M response) : M response :=
  v <- dep ;;
  path_operation v.

Definition guarded_route (self : integration) (url : string)
    (path_operation : dependency_value -> M response) : M response :=
  run_with_dependency (dependency self url) path_operation.

End WithEnv.
End FastAPI.

(* ===================================================================== *)
(** ** Vocabulary of the statements and sample data *)
(* ===================================================================== *)

Module Spec.
Import Py Http Runtime.

(** The auth slot is empty or holds an auth record (a dictionary), which is
    all the package ever writes there. *)
Definition record_slot (s : gmap string pyval) (key : string) : Prop :=
  forall v, s !! key = Some v -> exists d, v = PDict d.

(** The slot holds a record with an [access_token] key. *)
Definition has_access_token (s : gmap string pyval) (key : string) : Prop :=
  exists d v, s !! key = Some (PDict d) /\ dict_lookup "access_token" d = Some v.

(** The slot holds a record whose [access_token] is not empty. *)
Definition has_nonempty_access_token (s : gmap string pyval) (key : string) : Prop :=
  exists d v, s !! key = Some (PDict d) /\ dict_lookup "access_token" d = Some v
              /\ truthy v = true.

(** The three ways a callback completion fails, with the exception that
    ends it and the state it ends in: the code-for-token exchange raises;
    the token response has no [access_token] to read; the userinfo fetch
    raises. *)
Inductive callback_failure (E : env) (c : Client.client) (code : string) (w : world)
  : exn -> world -> Prop :=
| exchange_failed e w1 :
    Client.exchange_code_for_tokens E c code w = (Raise e, w1) ->
    callback_failure E c code w e w1
| access_token_missing tokens e w1 :
    Client.exchange_code_for_tokens E c code w = (Ok tokens, w1) ->
    getitem tokens "access_token" = Raise e ->
    callback_failure E c code w e w1
| userinfo_failed tokens access_token e w1 w2 :
    Client.exchange_code_for_tokens E c code w = (Ok tokens, w1) ->
    getitem tokens "access_token" = Ok access_token ->
    Client.get_userinfo E c access_token w1 = (Raise e, w2) ->
    callback_failure E c code w e w2.

(** A callback completion that goes through: the exchange answers with a
    token response holding [access_token], and the userinfo fetch answers
    with the claims. *)
Definition callback_success (E : env) (c : Client.client) (code : string) (w : world)
    (tokens : list (string * pyval)) (access_token user_info : pyval) (w2 : world) : Prop :=
  exists w1,
    Client.exchange_code_for_tokens E c code w = (Ok (PDict tokens), w1)
    /\ dict_lookup "access_token" tokens = Some access_token
    /\ Client.get_userinfo E c access_token w1 = (Ok user_info, w2).

(** The record [auth_callback] stores for a token response and claims. *)
Definition auth_record (tokens : list (string * pyval)) (access_token user_info : pyval)
  : pyval :=
  let field k := match dict_lookup k tokens with Some x => x | None => PNone end in
  PDict [ ("access_token", access_token);
          ("id_token", field "id_token");
          ("refresh_token", field "refresh_token");
          ("expires_in", field "expires_in");
          ("user_info", user_info) ].

(** The return-to target a completed callback redirects to. *)
Definition pending_return_to (s : gmap string pyval) : pyval :=
  match s !! "return_to" with Some v => v | None => PStr "/" end.

(** The session a callback leaves is the one it found, or that one with a
    record holding [access_token] written (and the return-to slot popped). *)
Definition wrote_record_or_nothing (key : string) (s s' : gmap string pyval) : Prop :=
  s' = s
  \/ exists d token, dict_lookup "access_token" d = Some token
                     /\ s' = delete "return_to" (<[key := PDict d]> s).

(** The parameter an optional argument contributes to a query: one pair
    when a non-empty value was given, none otherwise. *)
Definition optional_param (name : string) (value : option string)
  : list (string * string) :=
  match value with
  | Some v => if String.eqb v "" then [] else [(name, v)]
  | None => []
  end.

(** The query has a parameter of that name. *)
Definition has_param (name : string) (query : list (string * string)) : Prop :=
  exists v, In (name, v) query.


(** The world with another session store. *)
Definition with_session (s : gmap string pyval) (w : world) : world :=
  World s (http_log w).

End Spec.

Module Sample.
Import Py Http Runtime.

(** The discovery document and client of the end-to-end scenario. *)
Definition discovery_document : pyval :=
  PDict [ ("issuer", PStr "https://idp.example");
          ("authorization_endpoint", PStr "https://idp.example/authorize");
          ("token_endpoint", PStr "https://idp.example/token");
          ("userinfo_endpoint", PStr "https://idp.example/userinfo") ].

Definition demo_client : Client.client :=
  Client.NextIdentityClient "abc" "s3cret" "https://app/callback"
    "https://idp.example/.well-known/openid-configuration"
    "openid profile email" discovery_document.

Definition auth_key : string := "next_identity_auth".

(** A session whose record kept [user_info] but lost its [access_token]. *)
Definition session_without_token : world :=
  World {[ auth_key := PDict [("user_info", PDict [("sub", PStr "u1")])] ]} [].

(** A record whose [access_token] is present but empty. *)
Definition session_empty_token : world :=
  World {[ auth_key := PDict [("access_token", PStr ""); ("user_info", PDict [])] ]} [].

(** Stub collaborators: a transport that answers the token endpoint, the
    discovery URL and the userinfo endpoint with fixed outcomes; a
    [json.loads] that knows the empty object; a host with a view for every
    endpoint name. *)
Definition ok_response (v : pyval) : outcome :=
  Responded (Response 200 "OK" "" (inl v)).

Definition status_response (status : Z) (reason : string) (v : pyval) : outcome :=
  Responded (Response status reason "" (inl v)).

Definition stub_send (discovery token userinfo : outcome)
  : list request -> request -> outcome :=
  fun _ req =>
    match req with
    | POST _ _ => token
    | GET (PStr u) _ =>
        if String.eqb u "https://idp.example/.well-known/openid-configuration"
        then discovery else userinfo
    | GET _ _ => Failed "Invalid URL"
    end.

Definition stub_env (discovery token userinfo : outcome) : env :=
  Env (stub_send discovery token userinfo) true
      (fun s => if String.eqb s "{}" then Ok (PDict [])
                else Raise (JSONDecodeError "Expecting value"))
      (fun _ => "<object>")
      (fun endpoint external =>
         Ok ((if external then "http://localhost:5000" else "") ++ "/" ++ endpoint)).

Definition token_response : pyval :=
  PDict [("access_token", PStr "tok1"); ("id_token", PStr "a.b.c")].

Definition claims : pyval :=
  PDict [("sub", PStr "u1"); ("email", PStr "u1@example.com")].

(** The provider of the scenario, when every call answers. *)
Definition idp : env :=
  stub_env (ok_response discovery_document) (ok_response token_response)
    (ok_response claims).

(** The same provider with the token endpoint unreachable. *)
Definition idp_token_down : env :=
  stub_env (ok_response discovery_document) (Failed "Connection refused")
    (ok_response claims).



(** A session waiting for the callback, with a return-to target stored. *)
Definition pending_login : world :=
  World {[ "return_to" := PStr "/protected" ]} [].

(** A provider configuration that also names the end-session endpoint. *)
Definition discovery_with_logout : pyval :=
  PDict [ ("issuer", PStr "https://idp.example");
          ("token_endpoint", PStr "https://idp.example/token");
          ("userinfo_endpoint", PStr "https://idp.example/userinfo");
          ("end_session_endpoint", PStr "https://idp.example/logout") ].

Definition logout_client : Client.client :=
  Client.set_config demo_client discovery_with_logout.

(** An authenticated session, as the scenario's callback leaves it. *)
Definition signed_in : world :=
  World {[ auth_key := PDict [ ("access_token", PStr "tok1");
                               ("id_token", PStr "a.b.c");
                               ("refresh_token", PNone);
                               ("expires_in", PNone);
                               ("user_info", claims) ] ]} [].

(** A provider whose discovery URL answers 300 Multiple Choices with the
    document as its body. *)
Definition idp_multiple_choices : env :=
  stub_env (status_response 300 "Multiple Choices" discovery_document)
    (ok_response token_response) (ok_response claims).

(** A provider whose discovery URL answers 503. *)
Definition idp_unavailable : env :=
  stub_env (status_response 503 "Service Unavailable" PNone)
    (ok_response token_response) (ok_response claims).

Definition fresh_client : Client.client :=
  Client.set_config demo_client PNone.

(** A protected page: a path operation that does not look at the value of
    its guard parameter. *)
Definition protected_page : FastAPI.dependency_value -> M FastAPI.response :=
  fun _ => ret (FastAPI.HTMLResponse "Protected Content").

Definition anonymous : world := World ∅ [].


Definition protected_url : string := "http://localhost:8000/protected".

End Sample.

(* ===================================================================== *)
(** ** Auxiliary definitions of the proofs *)
(* ===================================================================== *)

Module Helpers.
Import Py Str Urllib.

(** What [quote_plus] makes of one character. *)
Definition quote_plus_char (c : ascii) : string :=
  if Ascii.eqb c " " then "+" else quoter "" c.

Fixpoint quote_plus_chars (s : string) : string :=
  match s with
  | EmptyString => EmptyString
  | String c s' => quote_plus_char c ++ quote_plus_chars s'
  end.

(** The characters [quote_plus] can produce. *)
Definition quoted_char (c : ascii) : bool :=
  always_safe c || Ascii.eqb c "%" || Ascii.eqb c "+".

(** One [name=value] field of [urlencode]. *)
Definition encode_field (kv : string * string) : string :=
  quote_plus (fst kv) ++ "=" ++ quote_plus (snd kv).

(** Every byte, and every integer below a bound: the finite domains the
    bit-level facts are checked on. *)
Definition all_bytes : list ascii := map ascii_of_nat (seq 0 256).
Definition below (n : nat) : list Z := map Z.of_nat (seq 0 n).

(** The continuation of the decoder after it wrote a byte. *)
Definition prepend (c : ascii) (out : string) : result string := Ok (String c out).

End Helpers.

(* ===================================================================== *)
(** ** Vocabulary of the further properties *)
(* ===================================================================== *)

Module Blocks.
Import Py Http Runtime.
Local Open Scope py_scope.

(** The block shared by [_fetch_config], [exchange_code_for_tokens] and
    [get_userinfo]: one request, the status check, the body as JSON, every
    [RequestException] re-raised as a plain [Exception] with a prefix. *)
Definition guarded_request (E : env) (req : request) (prefix : string) : M pyval :=
  try_except
    (response <- http E req ;;
     lift (raise_for_status response) ;;;
     lift (json (json_error_is_request_exception E) response))
    is_request_exception
    (fun e => raise (Exception (prefix ++ str_exn e))).

(** The form [exchange_code_for_tokens] posts. *)
Definition token_request (self : Client.client) (endpoint : pyval) (code : string)
  : request :=
  POST endpoint
    [ ("grant_type", "authorization_code");
      ("code", code);
      ("redirect_uri", Client.redirect_uri self);
      ("client_id", Client.client_id self);
      ("client_secret", Client.client_secret self) ].

(** The request [get_userinfo] sends for a token that is a string. *)
Definition userinfo_request (endpoint : pyval) (token : string) : request :=
  GET endpoint [("Authorization", "Bearer " ++ token)].

Definition not_loaded : exn := Exception "OIDC configuration not loaded".

(** The three flows the integrations start, with the path each one appends
    to the issuer and the method that starts it. *)
Inductive purpose : Type := Login | Register | EditProfile.

Definition purpose_path (p : purpose) : string :=
  match p with
  | Login => "/authorize"
  | Register => "/register"
  | EditProfile => "/personal-details"
  end.

Definition flask_begin (E : env) (p : purpose)
  : Flask.integration -> string -> M Flask.response :=
  match p with
  | Login => Flask.login E
  | Register => Flask.register E
  | EditProfile => Flask.edit_profile E
  end.

Definition fastapi_begin (E : env) (p : purpose)
  : FastAPI.integration -> string -> M FastAPI.response :=
  match p with
  | Login => FastAPI.login E
  | Register => FastAPI.register E
  | EditProfile => FastAPI.edit_profile E
  end.

(** The four parameters every authorization URL carries. *)
Definition base_params (self : Client.client) : list (string * string) :=
  [ ("client_id", Client.client_id self);
    ("redirect_uri", Client.redirect_uri self);
    ("response_type", "code");
    ("scope", Client.scope self) ].

(** The authorization URL without state or nonce. *)
Definition authorization_url (self : Client.client) (issuer path : string) : string :=
  (issuer ++ path) ++ "?" ++ Urllib.urlencode (base_params self).

(** The session with the return-to slot set. *)
Definition returning_to (target : string) (w : world) : world :=
  World (<["return_to" := PStr target]> (session w)) (http_log w).

(** What a body that is not JSON ends in: the package's exception when
    requests reports the decoding error as a [RequestException], the
    decoder's own error otherwise. *)
Definition json_failure (E : env) (prefix msg : string) : exn :=
  if json_error_is_request_exception E
  then Exception (prefix ++ msg) else JSONDecodeError msg.

End Blocks.

Module Sample2.
Import Py Http Runtime Sample.

(** A provider whose discovery URL answers 200 with an empty JSON object. *)
Definition idp_empty_document : env :=
  stub_env (ok_response (PDict [])) (ok_response token_response) (ok_response claims).

(** A provider whose token endpoint answers 400. *)
Definition idp_rejects_code : env :=
  stub_env (ok_response discovery_document)
    (status_response 400 "Bad Request" (PDict [("error", PStr "invalid_grant")]))
    (ok_response claims).

(** A provider whose userinfo endpoint answers 401. *)
Definition idp_rejects_token : env :=
  stub_env (ok_response discovery_document) (ok_response token_response)
    (status_response 401 "Unauthorized" PNone).

(** A provider whose discovery URL answers 200 with a page that is not
    JSON, seen through an old and a recent version of requests. *)
Definition html_page : outcome :=
  Responded (Response 200 "OK" "" (inr "Expecting value: line 1 column 1 (char 0)")).

Definition idp_html (recent_requests : bool) : env :=
  Env (stub_send html_page (ok_response token_response) (ok_response claims))
      recent_requests (json_loads idp) (str_nonstring idp) (url_for idp).

(** A configuration that only names the issuer. *)
Definition issuer_only_client : Client.client :=
  Client.set_config demo_client (PDict [("issuer", PStr "https://idp.example")]).

End Sample2.

Module Sample3.
Import Py Http Runtime Sample.

(** A signed-in session that also holds data of the host application and a
    pending return-to target. *)
Definition busy_session : world :=
  World (<[ "cart" := PList [PStr "book"] ]>
           (<[ "return_to" := PStr "/orders" ]> (session signed_in))) [].

End Sample3.

Module Blocks2.
Import Py Http Runtime.

(** The parameters of the end-session URL when the record holds an ID
    token: the hint, then the post-logout target if there is one. *)
Definition logout_params (id_token target : string) : list (string * string) :=
  ("id_token_hint", id_token)
  :: (if String.eqb target "" then [] else [("post_logout_redirect_uri", target)]).

(** The userinfo request a callback makes after an exchange: one when the
    exchange returned something with an [access_token] to read, none
    otherwise. *)
Definition userinfo_requests (E : env) (endpoint : pyval) (exchange : result pyval)
  : list request :=
  match exchange with
  | Ok tokens =>
      match getitem tokens "access_token" with
      | Ok token => [GET endpoint [("Authorization", "Bearer " ++ format_value E token)]]
      | Raise _ => []
      end
  | Raise _ => []
  end.

End Blocks2.

(* ===================================================================== *)
(** ** examples/flask_app.py *)
(* ===================================================================== *)

Module FlaskApp.
Import Py Http Runtime.
Local Open Scope py_scope.

Section App.
Variable E : env.
(** The [auth] object of the application. *)
Variable auth : Flask.integration.
(** [render_template_string(TEMPLATE, is_authenticated, user_info,
    protected_content)]. *)
Variable render : bool -> pyval -> bool -> string.

(** A view that returns a string answers 200 with it. *)
Definition index : M Flask.response :=
  is_authenticated <- Flask.is_authenticated auth ;;
  user_info <- Flask.get_user_info auth ;;
  ret (Flask.Text (render is_authenticated user_info false) 200).

Definition login : M Flask.response :=
  return_to <- lift (url_for E "index" true) ;;
  Flask.login E auth return_to.

Definition register : M Flask.response :=
  return_to <- lift (url_for E "index" true) ;;
  Flask.register E auth return_to.

Definition profile : M Flask.response :=
  return_to <- lift (url_for E "index" true) ;;
  Flask.edit_profile E auth return_to.

Definition logout : M Flask.response :=
  return_to <- lift (url_for E "index" true) ;;
  Flask.logout E auth return_to.

(** The view under [@auth.login_required]; [url] is [request.url]. *)
Definition protected (url : string) : M Flask.response :=
  Flask.login_required E auth
    (user_info <- Flask.get_user_info auth ;;
     ret (Flask.Text (render true user_info true) 200))
    url.

End App.
End FlaskApp.

Module Sample4.
Import Py Http Runtime Sample.

(** A rendering that only records what it was given. *)
Definition show (is_authenticated : bool) (user_info : pyval) (protected_content : bool)
  : string :=
  (if is_authenticated then "signed in" else "anonymous")
  ++ (match user_info with PNone => ", no claims" | _ => ", claims" end)
  ++ (if protected_content then ", protected content" else "").

End Sample4.

Module Sample5.
Import Py Http Runtime Sample.

(** A token response with fields the package does not know. *)
Definition rich_token_response : pyval :=
  PDict [ ("access_token", PStr "tok2"); ("token_type", PStr "Bearer");
          ("expires_in", PInt 3600); ("scope", PStr "openid profile email") ].

Definition idp_rich : env :=
  stub_env (ok_response discovery_document) (ok_response rich_token_response)
    (ok_response claims).

End Sample5.

(* ===================================================================== *)
(** * Properties *)
(* ===================================================================== *)

Import Py Str Http Runtime Spec Sample Helpers.

(** ** The session auth guard: reading the authentication state *)

Section AuthState.

Lemma flask_fastapi_is_authenticated (c c' : Client.client) (key : string) (w : world) :
  FastAPI.is_authenticated (FastAPI.NextIdentityFastAPI c' key) w
  = Flask.is_authenticated (Flask.NextIdentityFlask c key) w.
Proof. reflexivity. Qed.

Lemma flask_is_authenticated_absent (self : Flask.integration) (w : world) :
  session w !! Flask.session_auth_key self = None ->
  Flask.is_authenticated self w = (Ok false, w).
Proof.
  intros Hn. unfold Flask.is_authenticated, bind, session_has.
  rewrite Hn. rewrite bool_decide_eq_false_2; [reflexivity|].
  intros [x Hx]; discriminate.
Qed.

Lemma flask_is_authenticated_present (self : Flask.integration) (w : world) (v : pyval) :
  session w !! Flask.session_auth_key self = Some v ->
  Flask.is_authenticated self w = (contains "access_token" v, w).
Proof.
  intros Hs. unfold Flask.is_authenticated, bind, session_has, session_getitem, lift.
  rewrite bool_decide_eq_true_2 by (rewrite Hs; eauto).
  rewrite Hs. destruct (contains "access_token" v); reflexivity.
Qed.

Lemma fastapi_is_authenticated_absent (self : FastAPI.integration) (w : world) :
  session w !! FastAPI.session_auth_key self = None ->
  FastAPI.is_authenticated self w = (Ok false, w).
Proof.
  destruct self as [c key]. intros Hn.
  rewrite (flask_fastapi_is_authenticated c c key).
  by apply flask_is_authenticated_absent.
Qed.

Lemma fastapi_is_authenticated_present (self : FastAPI.integration) (w : world) (v : pyval) :
  session w !! FastAPI.session_auth_key self = Some v ->
  FastAPI.is_authenticated self w = (contains "access_token" v, w).
Proof.
  destruct self as [c key]. intros Hs.
  rewrite (flask_fastapi_is_authenticated c c key).
  by apply flask_is_authenticated_present.
Qed.

End AuthState.

(** C1, as the code has it.  On a session whose auth slot is empty or holds
    a record, [is_authenticated] (Flask and FastAPI alike) is a pure read
    that answers [True] exactly when the record exists and has an
    [access_token] key, whatever the value under that key; a record from
    which the key was removed reads as anonymous even if [user_info]
    remains. *)
Theorem is_authenticated_iff_access_token_key
    (c : Client.client) (key : string) (w : world) :
  record_slot (session w) key ->
  exists b : bool,
    Flask.is_authenticated (Flask.NextIdentityFlask c key) w = (Ok b, w)
    /\ FastAPI.is_authenticated (FastAPI.NextIdentityFastAPI c key) w = (Ok b, w)
    /\ (b = true <-> has_access_token (session w) key).
Proof.
  intros Hslot.
  rewrite (flask_fastapi_is_authenticated c c key).
  destruct (session w !! key) as [v|] eqn:Hs.
  - destruct (Hslot v Hs) as [d ->].
    rewrite (flask_is_authenticated_present (Flask.NextIdentityFlask c key) w _ Hs).
    simpl. exists (dict_has "access_token" d). repeat split; trivial.
    + intros Hb. unfold dict_has in Hb. unfold has_access_token.
      destruct (dict_lookup "access_token" d) as [x|] eqn:Hl; [|discriminate].
      exists d, x. rewrite Hs. auto.
    + intros (d' & x & Hd & Hl). rewrite Hs in Hd. injection Hd as <-.
      unfold dict_has. by rewrite Hl.
  - rewrite (flask_is_authenticated_absent (Flask.NextIdentityFlask c key) w Hs).
    exists false. repeat split; trivial; [discriminate|].
    intros (d & x & Hd & _). rewrite Hs in Hd. discriminate.
Qed.

Lemma is_authenticated_iff_access_token_key_witness :
  exists b : bool,
    Flask.is_authenticated (Flask.NextIdentityFlask demo_client auth_key)
      session_without_token = (Ok b, session_without_token)
    /\ FastAPI.is_authenticated (FastAPI.NextIdentityFastAPI demo_client auth_key)
         session_without_token = (Ok b, session_without_token)
    /\ (b = true <-> has_access_token (session session_without_token) auth_key).
Proof.
  apply (is_authenticated_iff_access_token_key demo_client auth_key
           session_without_token).
  intros v Hv. simpl in Hv. rewrite lookup_singleton_eq in Hv.
  injection Hv as <-. eauto.
Defined.

(** C1 as stated fails: with an empty [access_token] in the record the
    session reads as authenticated, in both integrations. *)
Lemma empty_access_token_reads_authenticated :
  Flask.is_authenticated (Flask.NextIdentityFlask demo_client auth_key)
    session_empty_token = (Ok true, session_empty_token)
  /\ FastAPI.is_authenticated (FastAPI.NextIdentityFastAPI demo_client auth_key)
       session_empty_token = (Ok true, session_empty_token)
  /\ ~ has_nonempty_access_token (session session_empty_token) auth_key.
Proof.
  assert (Hs : session session_empty_token !! auth_key
               = Some (PDict [("access_token", PStr ""); ("user_info", PDict [])])).
  { simpl. apply lookup_singleton_eq. }
  split; [|split].
  - rewrite (flask_is_authenticated_present
               (Flask.NextIdentityFlask demo_client auth_key) _ _ Hs). reflexivity.
  - rewrite (fastapi_is_authenticated_present
               (FastAPI.NextIdentityFastAPI demo_client auth_key) _ _ Hs). reflexivity.
  - intros (d & v & Hd & Hl & Ht). rewrite Hs in Hd. injection Hd as <-.
    simpl in Hl. injection Hl as <-. discriminate.
Qed.

(** ** The login-required guard *)

(** The Flask decorator on an anonymous session: the wrapped view [f] is not
    run; the current URL is stored as the return-to target and the answer is
    one redirect to the host's [login] view. *)
Lemma flask_login_required_anonymous (E : env) (self : Flask.integration)
    (f : M Flask.response) (url login_view : string) (w : world) :
  Flask.is_authenticated self w = (Ok false, w) ->
  url_for E "login" false = Ok login_view ->
  Flask.login_required E self f url w
  = (Ok (Flask.Redirect (PStr login_view) 302),
     with_session (<["return_to" := PStr url]> (session w)) w).
Proof.
  intros Ha Hu. unfold Flask.login_required, bind. rewrite Ha. simpl.
  unfold lift. rewrite Hu. reflexivity.
Qed.

Lemma flask_login_required_authenticated (E : env) (self : Flask.integration)
    (f : M Flask.response) (url : string) (w : world) :
  Flask.is_authenticated self w = (Ok true, w) ->
  Flask.login_required E self f url w = f w.
Proof.
  intros Ha. unfold Flask.login_required, bind. rewrite Ha. reflexivity.
Qed.

(** C2, the FastAPI form.  On an anonymous session the dependency stores the
    current URL and hands back a redirect as an ordinary value, so the path
    operation still runs, with that redirect as the value of its parameter:
    control reaches the protected handler. *)
Theorem fastapi_login_required_runs_path_operation
    (self : FastAPI.integration) (url : string)
    (path_operation : FastAPI.dependency_value -> M FastAPI.response) (w : world) :
  FastAPI.is_authenticated self w = (Ok false, w) ->
  FastAPI.guarded_route self url path_operation w
  = path_operation
      (FastAPI.DepResponse (FastAPI.RedirectResponse (PStr "/login") 307))
      (with_session (<["return_to" := PStr url]> (session w)) w).
Proof.
  intros Ha.
  unfold FastAPI.guarded_route, FastAPI.run_with_dependency, FastAPI.dependency, bind.
  rewrite Ha. reflexivity.
Qed.

Lemma fastapi_login_required_runs_path_operation_witness :
  FastAPI.guarded_route (FastAPI.NextIdentityFastAPI demo_client auth_key)
    protected_url protected_page anonymous
  = (Ok (FastAPI.HTMLResponse "Protected Content"),
     World (<["return_to" := PStr protected_url]> ∅) []).
Proof.
  apply (fastapi_login_required_runs_path_operation
           (FastAPI.NextIdentityFastAPI demo_client auth_key)
           protected_url protected_page anonymous).
  apply fastapi_is_authenticated_absent. reflexivity.
Defined.

(** ** Callback completion *)

(** Case analysis on whatever the goal matches on. *)
Ltac case_scrutinee :=
  match goal with
  | |- context [match ?x with _ => _ end] =>
      lazymatch x with
      | context [match _ with _ => _ end] => fail
      | _ => destruct x eqn:?
      end
  end.

Ltac run_handler :=
  unfold bind, try_except, lift, ret, raise, http, session_set, session_pop,
    session_get, session_has, session_getitem; simpl.

(** The client's network operations only extend the HTTP log. *)
Lemma exchange_keeps_session (E : env) (c : Client.client) (code : string) (w : world) :
  session (snd (Client.exchange_code_for_tokens E c code w)) = session w.
Proof.
  unfold Client.exchange_code_for_tokens. run_handler.
  repeat (case_scrutinee; simpl; try reflexivity).
Qed.

Lemma userinfo_keeps_session (E : env) (c : Client.client) (token : pyval) (w : world) :
  session (snd (Client.get_userinfo E c token w)) = session w.
Proof.
  unfold Client.get_userinfo. run_handler.
  repeat (case_scrutinee; simpl; try reflexivity).
Qed.

Lemma callback_failure_keeps_session (E : env) (c : Client.client) (code : string)
    (w : world) (e : exn) (w' : world) :
  callback_failure E c code w e w' -> session w' = session w.
Proof.
  intros [e0 w1 H | tokens e0 w1 H _ | tokens tok e0 w1 w2 H _ H2].
  - rewrite <- (exchange_keeps_session E c code w). by rewrite H.
  - rewrite <- (exchange_keeps_session E c code w). by rewrite H.
  - rewrite <- (exchange_keeps_session E c code w), H. simpl.
    rewrite <- (userinfo_keeps_session E c tok w1). by rewrite H2.
Qed.

(** A failed completion in the Flask view: the error text with status 400,
    in the state the failure left. *)
Lemma flask_callback_failure (E : env) (self : Flask.integration) (code : string)
    (w : world) (e : exn) (w' : world) :
  code <> "" ->
  callback_failure E (Flask.client self) code w e w' ->
  Flask.auth_callback E self (Some code) w
  = (Ok (Flask.Text ("Authentication error: " ++ str_exn e) 400), w').
Proof.
  intros Hc Hf. unfold Flask.auth_callback. simpl.
  apply String.eqb_neq in Hc. rewrite Hc. simpl.
  unfold try_except, bind at 1.
  destruct Hf as [e0 w1 H | tokens e0 w1 H Hg | tokens tok e0 w1 w2 H Hg H2].
  - rewrite H. reflexivity.
  - rewrite H. unfold bind at 1, lift at 1. rewrite Hg. reflexivity.
  - rewrite H. unfold bind at 1, lift at 1. rewrite Hg.
    unfold bind at 1. rewrite H2. reflexivity.
Qed.

Lemma fastapi_callback_failure (E : env) (self : FastAPI.integration) (code : string)
    (w : world) (e : exn) (w' : world) :
  code <> "" ->
  callback_failure E (FastAPI.client self) code w e w' ->
  FastAPI.auth_callback E self (Some code) w
  = (Raise (HTTPException 400 ("Authentication error: " ++ str_exn e)), w').
Proof.
  intros Hc Hf. unfold FastAPI.auth_callback. simpl.
  apply String.eqb_neq in Hc. rewrite Hc. simpl.
  unfold try_except, bind at 1.
  destruct Hf as [e0 w1 H | tokens e0 w1 H Hg | tokens tok e0 w1 w2 H Hg H2].
  - rewrite H. reflexivity.
  - rewrite H. unfold bind at 1, lift at 1. rewrite Hg. reflexivity.
  - rewrite H. unfold bind at 1, lift at 1. rewrite Hg.
    unfold bind at 1. rewrite H2. reflexivity.
Qed.

Lemma pop_return_to (s : gmap string pyval) (log : list request) :
  session_pop "return_to" (PStr "/") (World s log)
  = (Ok (pending_return_to s), World (delete "return_to" s) log).
Proof.
  unfold session_pop, pending_return_to. simpl.
  destruct (s !! "return_to") eqn:Hs; [reflexivity|].
  by rewrite delete_id.
Qed.

(** A completed callback in the Flask view: the record is written, the
    return-to slot is consumed, and the answer redirects to its value. *)
Lemma flask_callback_success (E : env) (self : Flask.integration) (code : string)
    (w : world) tokens access_token user_info (w2 : world) :
  code <> "" ->
  callback_success E (Flask.client self) code w tokens access_token user_info w2 ->
  let s := <[Flask.session_auth_key self := auth_record tokens access_token user_info]>
             (session w) in
  Flask.auth_callback E self (Some code) w
  = (Ok (Flask.Redirect (pending_return_to s) 302),
     with_session (delete "return_to" s) w2).
Proof.
  intros Hc (w1 & Hx & Hl & Hu) s. unfold Flask.auth_callback. simpl.
  apply String.eqb_neq in Hc. rewrite Hc. simpl.
  unfold try_except, bind at 1. rewrite Hx.
  unfold bind at 1, lift at 1. simpl. rewrite Hl.
  unfold bind at 1. rewrite Hu.
  run_handler.
  pose proof (userinfo_keeps_session E (Flask.client self) access_token w1) as Hs2.
  pose proof (exchange_keeps_session E (Flask.client self) code w) as Hs1.
  rewrite Hu in Hs2. rewrite Hx in Hs1. simpl in Hs1, Hs2.
  rewrite Hs2, Hs1.
  fold (auth_record tokens access_token user_info). fold s.
  unfold pending_return_to, with_session.
  destruct (s !! "return_to") eqn:Hr; [reflexivity|].
  by rewrite delete_id.
Qed.

Lemma fastapi_callback_success (E : env) (self : FastAPI.integration) (code : string)
    (w : world) tokens access_token user_info (w2 : world) :
  code <> "" ->
  callback_success E (FastAPI.client self) code w tokens access_token user_info w2 ->
  let s := <[FastAPI.session_auth_key self := auth_record tokens access_token user_info]>
             (session w) in
  FastAPI.auth_callback E self (Some code) w
  = (Ok (FastAPI.RedirectResponse (pending_return_to s) 307),
     with_session (delete "return_to" s) w2).
Proof.
  intros Hc (w1 & Hx & Hl & Hu) s. unfold FastAPI.auth_callback. simpl.
  apply String.eqb_neq in Hc. rewrite Hc. simpl.
  unfold try_except, bind at 1. rewrite Hx.
  unfold bind at 1, lift at 1. simpl. rewrite Hl.
  unfold bind at 1. rewrite Hu.
  run_handler.
  pose proof (userinfo_keeps_session E (FastAPI.client self) access_token w1) as Hs2.
  pose proof (exchange_keeps_session E (FastAPI.client self) code w) as Hs1.
  rewrite Hu in Hs2. rewrite Hx in Hs1. simpl in Hs1, Hs2.
  rewrite Hs2, Hs1.
  fold (auth_record tokens access_token user_info). fold s.
  unfold pending_return_to, with_session.
  destruct (s !! "return_to") eqn:Hr; [reflexivity|].
  by rewrite delete_id.
Qed.

(** With a code in hand, a callback completion either fails in one of the
    three ways or goes through. *)
Lemma callback_cases (E : env) (c : Client.client) (code : string) (w : world) :
  (exists e w', callback_failure E c code w e w')
  \/ (exists tokens access_token user_info w2,
        callback_success E c code w tokens access_token user_info w2).
Proof.
  destruct (Client.exchange_code_for_tokens E c code w) as [[tokens|e] w1] eqn:Hx.
  - destruct (getitem tokens "access_token") as [tok|e] eqn:Hg.
    + destruct (Client.get_userinfo E c tok w1) as [[ui|e] w2] eqn:Hu.
      * right. destruct tokens as [| | | | |d]; try discriminate.
        exists d, tok, ui, w2, w1. repeat split; trivial.
        simpl in Hg. destruct (dict_lookup "access_token" d); congruence.
      * left. exists e, w2. eapply userinfo_failed; eauto.
    + left. exists e, w1. eapply access_token_missing; eauto.
  - left. exists e, w1. by apply exchange_failed.
Qed.

Lemma flask_callback_without_code (E : env) (self : Flask.integration)
    (code : option string) (w : world) :
  truthy_opt code = false ->
  Flask.auth_callback E self code w = (Ok (Flask.Text "Authorization code missing" 400), w).
Proof. intros H. unfold Flask.auth_callback. rewrite H. reflexivity. Qed.

Lemma fastapi_callback_without_code (E : env) (self : FastAPI.integration)
    (code : option string) (w : world) :
  truthy_opt code = false ->
  FastAPI.auth_callback E self code w
  = (Raise (HTTPException 400 "Authorization code missing"), w).
Proof. intros H. unfold FastAPI.auth_callback. rewrite H. reflexivity. Qed.

Lemma truthy_opt_some (code : option string) :
  truthy_opt code = true -> exists c, code = Some c /\ c <> "".
Proof.
  destruct code as [c|]; [|discriminate]. simpl. intros H.
  exists c. split; [reflexivity|]. intros ->. discriminate.
Qed.

Lemma flask_callback_session (E : env) (self : Flask.integration)
    (code : option string) (w : world) :
  wrote_record_or_nothing (Flask.session_auth_key self) (session w)
    (session (snd (Flask.auth_callback E self code w))).
Proof.
  destruct (truthy_opt code) eqn:Hc.
  - destruct (truthy_opt_some code Hc) as (c & -> & Hne).
    destruct (callback_cases E (Flask.client self) c w)
      as [(e & w' & Hf) | (tokens & tok & ui & w2 & Hs)].
    + rewrite (flask_callback_failure E self c w e w' Hne Hf). simpl.
      left. by eapply callback_failure_keeps_session.
    + rewrite (flask_callback_success E self c w tokens tok ui w2 Hne Hs). simpl.
      right. eexists _, tok. split; [|reflexivity]. reflexivity.
  - rewrite (flask_callback_without_code E self code w Hc). by left.
Qed.

Lemma fastapi_callback_session (E : env) (self : FastAPI.integration)
    (code : option string) (w : world) :
  wrote_record_or_nothing (FastAPI.session_auth_key self) (session w)
    (session (snd (FastAPI.auth_callback E self code w))).
Proof.
  destruct (truthy_opt code) eqn:Hc.
  - destruct (truthy_opt_some code Hc) as (c & -> & Hne).
    destruct (callback_cases E (FastAPI.client self) c w)
      as [(e & w' & Hf) | (tokens & tok & ui & w2 & Hs)].
    + rewrite (fastapi_callback_failure E self c w e w' Hne Hf). simpl.
      left. by eapply callback_failure_keeps_session.
    + rewrite (fastapi_callback_success E self c w tokens tok ui w2 Hne Hs). simpl.
      right. eexists _, tok. split; [|reflexivity]. reflexivity.
  - rewrite (fastapi_callback_without_code E self code w Hc). by left.
Qed.

(** C5.  When the code-for-token exchange fails, or the token response has
    no [access_token], or the userinfo fetch fails, the callback leaves the
    session as it found it and answers with an authentication error (text
    and status 400 in Flask, [HTTPException] 400 in FastAPI).  Whatever the
    outcome, the session a callback leaves is either the one it found or
    that one with a record holding [access_token]: no record is persisted
    without it. *)
Theorem callback_failure_writes_nothing
    (E : env) (c : Client.client) (key : string) (w : world) :
  (forall code e w',
      code <> "" ->
      callback_failure E c code w e w' ->
      Flask.auth_callback E (Flask.NextIdentityFlask c key) (Some code) w
      = (Ok (Flask.Text ("Authentication error: " ++ str_exn e) 400), w')
      /\ FastAPI.auth_callback E (FastAPI.NextIdentityFastAPI c key) (Some code) w
         = (Raise (HTTPException 400 ("Authentication error: " ++ str_exn e)), w')
      /\ session w' = session w)
  /\ (forall code,
        wrote_record_or_nothing key (session w)
          (session (snd (Flask.auth_callback E (Flask.NextIdentityFlask c key) code w)))
        /\ wrote_record_or_nothing key (session w)
             (session (snd (FastAPI.auth_callback E
                              (FastAPI.NextIdentityFastAPI c key) code w)))).
Proof.
  split.
  - intros code e w' Hne Hf. repeat split.
    + by apply flask_callback_failure.
    + by apply fastapi_callback_failure.
    + by eapply callback_failure_keeps_session.
  - intros code. split.
    + apply (flask_callback_session E (Flask.NextIdentityFlask c key)).
    + apply (fastapi_callback_session E (FastAPI.NextIdentityFastAPI c key)).
Qed.

Lemma callback_failure_writes_nothing_witness :
  Flask.auth_callback idp_token_down (Flask.NextIdentityFlask demo_client auth_key)
    (Some "xyz") pending_login
  = (Ok (Flask.Text
           "Authentication error: Failed to exchange code for tokens: Connection refused"
           400),
     with_session (session pending_login)
       (snd (Client.exchange_code_for_tokens idp_token_down demo_client "xyz"
               pending_login))).
Proof.
  destruct (callback_failure_writes_nothing idp_token_down demo_client auth_key
              pending_login) as [Hfail _].
  destruct (Hfail "xyz"
              (Exception "Failed to exchange code for tokens: Connection refused")
              (snd (Client.exchange_code_for_tokens idp_token_down demo_client "xyz"
                      pending_login)))
    as (Hflask & _ & _).
  - discriminate.
  - apply exchange_failed. reflexivity.
  - exact Hflask.
Defined.

(** The end-to-end scenario: the callback with code [xyz] signs the user
    in, stores the claims and returns to the pending target. *)
Example scenario_callback :
  let flask := Flask.NextIdentityFlask demo_client auth_key in
  let w' := snd (Flask.auth_callback idp flask (Some "xyz") pending_login) in
  fst (Flask.auth_callback idp flask (Some "xyz") pending_login)
  = Ok (Flask.Redirect (PStr "/protected") 302)
  /\ Flask.is_authenticated flask w' = (Ok true, w')
  /\ Flask.get_user_info flask w' = (Ok claims, w')
  /\ http_log w'
     = [ POST (PStr "https://idp.example/token")
           [ ("grant_type", "authorization_code"); ("code", "xyz");
             ("redirect_uri", "https://app/callback"); ("client_id", "abc");
             ("client_secret", "s3cret") ];
         GET (PStr "https://idp.example/userinfo") [("Authorization", "Bearer tok1")] ].
Proof. vm_compute. repeat split; reflexivity. Qed.

(** ** Logout *)

Lemma flask_logout_world (E : env) (self : Flask.integration) (return_to : string)
    (w : world) :
  snd (Flask.logout E self return_to w)
  = with_session (delete (Flask.session_auth_key self) (session w)) w.
Proof.
  unfold Flask.logout, bind at 1, session_pop, with_session.
  destruct (session w !! Flask.session_auth_key self) eqn:Hs.
  - run_handler. repeat (case_scrutinee; simpl; try reflexivity).
  - rewrite (delete_id _ _ Hs). destruct w as [s l]. run_handler.
    repeat (case_scrutinee; simpl; try reflexivity).
Qed.

Lemma fastapi_logout_world (E : env) (self : FastAPI.integration) (return_to : string)
    (w : world) :
  snd (FastAPI.logout E self return_to w)
  = with_session (delete (FastAPI.session_auth_key self) (session w)) w.
Proof.
  unfold FastAPI.logout, bind at 1, session_pop, with_session.
  destruct (session w !! FastAPI.session_auth_key self) eqn:Hs.
  - run_handler. repeat (case_scrutinee; simpl; try reflexivity).
  - rewrite (delete_id _ _ Hs). destruct w as [s l]. run_handler.
    repeat (case_scrutinee; simpl; try reflexivity).
Qed.





Lemma auth_record_has_access_token tokens access_token user_info :
  contains "access_token" (auth_record tokens access_token user_info) = Ok true.
Proof. reflexivity. Qed.







(** ** Discovery *)

Lemma raise_for_status_error (r : response) :
  400 <= status_code r < 600 ->
  exists msg, raise_for_status r = Raise (RequestException msg).
Proof.
  intros [Hlo Hhi]. unfold raise_for_status.
  destruct (status_code r <? 500) eqn:H5.
  - replace (400 <=? status_code r) with true by (symmetry; by apply Z.leb_le).
    simpl. eauto.
  - replace (400 <=? status_code r) with true by (symmetry; by apply Z.leb_le).
    simpl. apply Z.ltb_ge in H5.
    replace (500 <=? status_code r) with true by (symmetry; by apply Z.leb_le).
    replace (status_code r <? 600) with true by (symmetry; by apply Z.ltb_lt).
    simpl. eauto.
Qed.

Lemma raise_for_status_pass (r : response) :
  ~ (400 <= status_code r < 600) -> raise_for_status r = Ok tt.
Proof.
  intros Hn. unfold raise_for_status.
  destruct (400 <=? status_code r) eqn:H4; simpl.
  - apply Z.leb_le in H4. destruct (status_code r <? 500) eqn:H5; simpl.
    + apply Z.ltb_lt in H5. lia.
    + apply Z.ltb_ge in H5.
      replace (500 <=? status_code r) with true by (symmetry; by apply Z.leb_le).
      destruct (status_code r <? 600) eqn:H6; simpl; [|reflexivity].
      apply Z.ltb_lt in H6. lia.
  - apply Z.leb_gt in H4.
    replace (500 <=? status_code r) with false by (symmetry; apply Z.leb_gt; lia).
    reflexivity.
Qed.

(** C9, as the code has it.  [_fetch_config] makes exactly one call, a GET
    of the discovery URL, and touches nothing else.  A transport failure
    and every answer with a 4xx or 5xx status end in the discovery error;
    an answer with a 2xx status (indeed any status outside 400..599) and a
    JSON body yields the client with the parsed document as its
    configuration. *)
Theorem fetch_config_single_get (E : env) (self : Client.client) (w : world) :
  let request := GET (PStr (Client.discovery_url self)) [] in
  let answer := send E (http_log w) request in
  let result := fst (Client._fetch_config E self w) in
  snd (Client._fetch_config E self w) = World (session w) (http_log w ++ [request])
  /\ (forall msg, answer = Failed msg ->
        result = Raise (Exception ("Failed to fetch OIDC configuration: " ++ msg)))
  /\ (forall r, answer = Responded r -> 400 <= status_code r < 600 ->
        exists msg,
          result = Raise (Exception ("Failed to fetch OIDC configuration: " ++ msg)))
  /\ (forall r document, answer = Responded r -> 200 <= status_code r < 300 ->
        body_json r = inl document ->
        result = Ok (Client.set_config self document))
  /\ (forall r document, answer = Responded r -> ~ (400 <= status_code r < 600) ->
        body_json r = inl document ->
        result = Ok (Client.set_config self document)).
Proof.
  intros request answer result. subst result answer.
  unfold Client._fetch_config, try_except, bind, http, lift. fold request.
  destruct (send E (http_log w) request) as [r|msg] eqn:Hsend; simpl.
  - assert (Hpass : forall document, ~ (400 <= status_code r < 600) ->
              body_json r = inl document ->
              fst (let (r0, w') :=
                     match raise_for_status r with
                     | Ok _ =>
                         match json (json_error_is_request_exception E) r with
                         | Ok a => ret (Client.set_config self a)
                                     (World (session w) (http_log w ++ [request]))
                         | Raise e => (Raise e, World (session w) (http_log w ++ [request]))
                         end
                     | Raise e => (Raise e, World (session w) (http_log w ++ [request]))
                     end in
                   match r0 with
                   | Ok a => (Ok a, w')
                   | Raise e =>
                       if is_request_exception e
                       then raise (Exception ("Failed to fetch OIDC configuration: "
                                              ++ str_exn e)) w'
                       else (Raise e, w')
                   end) = Ok (Client.set_config self document)).
    { intros document Hst Hb. rewrite (raise_for_status_pass r Hst).
      unfold json. rewrite Hb. reflexivity. }
    repeat split.
    + destruct (raise_for_status r) as [[]|e]; simpl.
      * destruct (json _ r) as [v|e]; simpl; [reflexivity|].
        destruct (is_request_exception e); reflexivity.
      * destruct (is_request_exception e); reflexivity.
    + intros msg Hm. discriminate.
    + intros r' Hr Hst. injection Hr as <-.
      destruct (raise_for_status_error r Hst) as [m ->]. simpl. eauto.
    + intros r' document Hr Hst Hb. injection Hr as <-. apply Hpass; [lia|assumption].
    + intros r' document Hr Hst Hb. injection Hr as <-. by apply Hpass.
  - repeat split; try (intros; discriminate).
    intros msg' Hm. injection Hm as <-. reflexivity.
Qed.

Lemma fetch_config_single_get_witness :
  (exists msg,
     fst (Client._fetch_config idp_unavailable fresh_client anonymous)
     = Raise (Exception ("Failed to fetch OIDC configuration: " ++ msg)))
  /\ snd (Client._fetch_config idp_unavailable fresh_client anonymous)
     = World ∅ [GET (PStr "https://idp.example/.well-known/openid-configuration") []].
Proof.
  destruct (fetch_config_single_get idp_unavailable fresh_client anonymous)
    as (Hlog & _ & Herr & _).
  split; [|exact Hlog].
  apply (Herr (Response 503 "Service Unavailable" "" (inl PNone)) eq_refl).
  simpl. lia.
Defined.

(** C9 as stated fails: a 300 answer is not a 2xx one, yet the client is
    built and its body becomes the configuration. *)
Lemma discovery_accepts_multiple_choices :
  send idp_multiple_choices []
    (GET (PStr "https://idp.example/.well-known/openid-configuration") [])
  = Responded (Response 300 "Multiple Choices" "" (inl discovery_document))
  /\ ~ (200 <= 300 < 300)
  /\ fst (Client.init idp_multiple_choices "abc" "s3cret" "https://app/callback"
            "https://idp.example/.well-known/openid-configuration"
            "openid profile email" anonymous)
     = Ok demo_client.
Proof.
  split; [reflexivity|]. split; [lia|]. reflexivity.
Qed.

(** ** Strings: splitting and joining *)

Section Strings.

Lemma append_cons (x : ascii) (a b : string) : String x a ++ b = String x (a ++ b).
Proof. reflexivity. Qed.

Lemma append_empty_l (b : string) : "" ++ b = b.
Proof. reflexivity. Qed.

(** [simpl] leaves [++] on strings alone; these equations unfold it. *)
Ltac simpl_append := rewrite ?append_cons, ?append_empty_l.

Lemma append_assoc (a b c : string) : (a ++ b) ++ c = a ++ (b ++ c).
Proof.
  induction a as [|x a IH]; simpl_append; [reflexivity|]. by rewrite IH.
Qed.

Lemma append_empty_r (a : string) : a ++ "" = a.
Proof.
  induction a as [|x a IH]; simpl_append; [reflexivity|]. by rewrite IH.
Qed.

Lemma forall_chars_app (p : ascii -> bool) (a b : string) :
  forall_chars p (a ++ b) = forall_chars p a && forall_chars p b.
Proof.
  induction a as [|x a IH]; simpl_append; simpl; [reflexivity|].
  rewrite IH. by rewrite andb_assoc.
Qed.

Lemma mem_char_app (c : ascii) (a b : string) :
  mem_char c (a ++ b) = mem_char c a || mem_char c b.
Proof.
  induction a as [|x a IH]; simpl_append; simpl; [reflexivity|].
  rewrite IH. by rewrite orb_assoc.
Qed.

Lemma forall_chars_not_mem (p : ascii -> bool) (c : ascii) (s : string) :
  forall_chars p s = true -> p c = false -> mem_char c s = false.
Proof.
  intros Hs Hc. induction s as [|x s IH]; simpl in *; [reflexivity|].
  apply andb_true_iff in Hs as [Hx Hs]. rewrite (IH Hs), orb_false_r.
  destruct (Ascii.eqb_spec c x) as [->|]; [congruence|reflexivity].
Qed.

Lemma split_on_no_sep (sep : ascii) (s : string) :
  mem_char sep s = false -> split_on sep s = [s].
Proof.
  induction s as [|x s IH]; simpl; [reflexivity|].
  intros H. apply orb_false_iff in H as [Hx Hs].
  rewrite Ascii.eqb_sym, Hx. by rewrite (IH Hs).
Qed.

Lemma split_on_app_sep (sep : ascii) (a b : string) :
  mem_char sep a = false ->
  split_on sep (a ++ String sep b) = a :: split_on sep b.
Proof.
  induction a as [|x a IH]; simpl_append; simpl.
  - intros _. by rewrite Ascii.eqb_refl.
  - intros H. apply orb_false_iff in H as [Hx Ha].
    rewrite Ascii.eqb_sym, Hx. by rewrite (IH Ha).
Qed.

Lemma split_once_no_sep (sep : ascii) (s : string) :
  mem_char sep s = false -> split_once sep s = (s, None).
Proof.
  induction s as [|x s IH]; simpl; [reflexivity|].
  intros H. apply orb_false_iff in H as [Hx Hs].
  rewrite Ascii.eqb_sym, Hx. by rewrite (IH Hs).
Qed.

Lemma split_once_app_sep (sep : ascii) (a b : string) :
  mem_char sep a = false ->
  split_once sep (a ++ String sep b) = (a, Some b).
Proof.
  induction a as [|x a IH]; simpl_append; simpl.
  - intros _. by rewrite Ascii.eqb_refl.
  - intros H. apply orb_false_iff in H as [Hx Ha].
    rewrite Ascii.eqb_sym, Hx. by rewrite (IH Ha).
Qed.

Lemma map_chars_app (f : ascii -> ascii) (a b : string) :
  map_chars f (a ++ b) = map_chars f a ++ map_chars f b.
Proof.
  induction a as [|x a IH]; simpl_append; simpl; [reflexivity|]. by rewrite IH.
Qed.

Lemma string_eqb_empty_app (a : string) (c : ascii) (b : string) :
  String.eqb (a ++ String c b) "" = false.
Proof. destruct a; reflexivity. Qed.

End Strings.

(** ** urllib: quoting round trip *)

Section Quoting.
Import Urllib.

Lemma quote_no_space (s : string) :
  mem_char " " s = false -> quote "" s = quote_plus_chars s.
Proof.
  induction s as [|c s IH]; cbn [mem_char quote quote_plus_chars]; [reflexivity|].
  intros H. apply orb_false_iff in H as [Hc Hs].
  rewrite (IH Hs). unfold quote_plus_char. rewrite Ascii.eqb_sym, Hc. reflexivity.
Qed.

Lemma replace_quoter_space (c : ascii) :
  replace_char " " "+" (quoter " " c) = quote_plus_char c.
Proof. destruct c as [[] [] [] [] [] [] [] []]; reflexivity. Qed.

Lemma quote_with_space (s : string) :
  replace_char " " "+" (quote " " s) = quote_plus_chars s.
Proof.
  induction s as [|c s IH]; cbn [quote quote_plus_chars]; [reflexivity|].
  unfold replace_char in *. rewrite map_chars_app, IH.
  f_equal. apply replace_quoter_space.
Qed.

Lemma quote_plus_chars_eq (s : string) : quote_plus s = quote_plus_chars s.
Proof.
  unfold quote_plus. destruct (mem_char " " s) eqn:H; simpl.
  - apply quote_with_space.
  - by apply quote_no_space.
Qed.

Lemma unquote_plus_char (c : ascii) (rest : string) :
  unquote (replace_char "+" " " (quote_plus_char c ++ rest))
  = String c (unquote (replace_char "+" " " rest)).
Proof. destruct c as [[] [] [] [] [] [] [] []]; reflexivity. Qed.

Lemma unquote_plus_quote_plus (s : string) : unquote_plus (quote_plus s) = s.
Proof.
  rewrite quote_plus_chars_eq. unfold unquote_plus.
  induction s as [|c s IH]; cbn [quote_plus_chars]; [reflexivity|].
  rewrite unquote_plus_char. by rewrite IH.
Qed.

Lemma quote_plus_char_quoted (c : ascii) :
  forall_chars quoted_char (quote_plus_char c) = true.
Proof. destruct c as [[] [] [] [] [] [] [] []]; reflexivity. Qed.

Lemma quote_plus_quoted (s : string) : forall_chars quoted_char (quote_plus s) = true.
Proof.
  rewrite quote_plus_chars_eq.
  induction s as [|c s IH]; cbn [quote_plus_chars]; [reflexivity|].
  rewrite forall_chars_app, IH, quote_plus_char_quoted. reflexivity.
Qed.

Lemma quote_plus_no_sep (sep : ascii) (s : string) :
  quoted_char sep = false -> mem_char sep (quote_plus s) = false.
Proof. intros H. eapply forall_chars_not_mem; [apply quote_plus_quoted|exact H]. Qed.

End Quoting.

(** ** urllib: parsing what [urlencode] wrote *)

Section QueryStrings.
Import Urllib.

Lemma urlencode_fields (params : list (string * string)) :
  urlencode params = join "&" (map encode_field params).
Proof. reflexivity. Qed.

Lemma encode_field_quoted_or_eq (kv : string * string) :
  forall_chars (fun c => quoted_char c || Ascii.eqb c "=") (encode_field kv) = true.
Proof.
  unfold encode_field. rewrite !forall_chars_app.
  assert (H : forall s, forall_chars (fun c => quoted_char c || Ascii.eqb c "=")
                          (quote_plus s) = true).
  { intros s. pose proof (quote_plus_quoted s) as Hq.
    induction (quote_plus s) as [|c q IH]; simpl in *; [reflexivity|].
    apply andb_true_iff in Hq as [Hc Hq]. rewrite Hc, (IH Hq). reflexivity. }
  rewrite !H. reflexivity.
Qed.

Lemma encode_field_no_sep (sep : ascii) (kv : string * string) :
  quoted_char sep = false -> Ascii.eqb sep "=" = false ->
  mem_char sep (encode_field kv) = false.
Proof.
  intros Hq He. eapply forall_chars_not_mem; [apply encode_field_quoted_or_eq|].
  simpl. by rewrite Hq, He.
Qed.

Lemma urlencode_no_sep (sep : ascii) (params : list (string * string)) :
  quoted_char sep = false -> Ascii.eqb sep "=" = false -> Ascii.eqb sep "&" = false ->
  mem_char sep (urlencode params) = false.
Proof.
  intros Hq He Ha. rewrite urlencode_fields.
  induction params as [|kv [|kv' params] IH]; [reflexivity| |].
  - simpl. by apply encode_field_no_sep.
  - change (join "&" (map encode_field (kv :: kv' :: params)))
      with (encode_field kv ++ "&" ++ join "&" (map encode_field (kv' :: params))).
    rewrite !mem_char_app, IH, (encode_field_no_sep sep kv Hq He).
    simpl. rewrite Ha. reflexivity.
Qed.

Lemma parse_field_encode (kv : string * string) :
  parse_field true (encode_field kv) = [kv].
Proof.
  destruct kv as [k v]. unfold parse_field, encode_field. simpl fst. simpl snd.
  change (quote_plus k ++ "=" ++ quote_plus v)
    with (quote_plus k ++ String "=" (quote_plus v)).
  rewrite string_eqb_empty_app.
  rewrite split_once_app_sep by (by apply quote_plus_no_sep).
  rewrite orb_true_r, !unquote_plus_quote_plus. reflexivity.
Qed.

Lemma split_join_fields (params : list (string * string)) :
  params <> [] ->
  split_on "&" (join "&" (map encode_field params)) = map encode_field params.
Proof.
  induction params as [|kv [|kv' params] IH]; [congruence| |]; intros _.
  - simpl. apply split_on_no_sep. by apply encode_field_no_sep.
  - change (join "&" (map encode_field (kv :: kv' :: params)))
      with (encode_field kv ++ String "&" (join "&" (map encode_field (kv' :: params)))).
    rewrite split_on_app_sep by (by apply encode_field_no_sep).
    rewrite IH by congruence. reflexivity.
Qed.

Lemma join_fields_nonempty (params : list (string * string)) :
  params <> [] -> String.eqb (join "&" (map encode_field params)) "" = false.
Proof.
  destruct params as [|[k v] [|kv' params]]; [congruence| |]; intros _.
  - simpl. unfold encode_field. simpl.
    change (quote_plus k ++ "=" ++ quote_plus v)
      with (quote_plus k ++ String "=" (quote_plus v)).
    apply string_eqb_empty_app.
  - change (join "&" (map encode_field ((k, v) :: kv' :: params)))
      with (encode_field (k, v) ++ String "&" (join "&" (map encode_field (kv' :: params)))).
    apply string_eqb_empty_app.
Qed.

(** Parsing (blank values kept) gives back the pairs that were encoded. *)
Lemma parse_qsl_urlencode (params : list (string * string)) :
  parse_qsl true (urlencode params) = params.
Proof.
  rewrite urlencode_fields. destruct params as [|kv params]; [reflexivity|].
  unfold parse_qsl. rewrite join_fields_nonempty by congruence.
  rewrite split_join_fields by congruence.
  generalize (kv :: params). intros l.
  induction l as [|x l IH]; [reflexivity|].
  simpl. rewrite parse_field_encode, IH. reflexivity.
Qed.

(** The query of a URL made of a base without ['?'] or ['#'], a ['?'] and
    an encoded parameter list is that parameter list. *)
Lemma url_query_urlencode (base : string) (params : list (string * string)) :
  mem_char "?" base = false -> mem_char "#" base = false ->
  url_query (base ++ "?" ++ urlencode params) = urlencode params.
Proof.
  intros Hq Hf. unfold url_query.
  rewrite (split_once_no_sep "#").
  - simpl fst. change (base ++ "?" ++ urlencode params)
      with (base ++ String "?" (urlencode params)).
    by rewrite split_once_app_sep.
  - rewrite !mem_char_app, Hf, urlencode_no_sep; reflexivity.
Qed.

End QueryStrings.

(** ** The authorization URL *)

Lemma get_auth_url_value (E : env) (c : Client.client) (state nonce : option string)
    (path issuer : string) d :
  Client.config c = PDict d ->
  dict_lookup "issuer" d = Some (PStr issuer) ->
  Client.get_auth_url E c state nonce path
  = Ok ((issuer ++ path) ++ "?"
        ++ Urllib.urlencode
             ([ ("client_id", Client.client_id c);
                ("redirect_uri", Client.redirect_uri c);
                ("response_type", "code");
                ("scope", Client.scope c) ]
              ++ optional_param "state" state ++ optional_param "nonce" nonce)%list).
Proof.
  intros Hc Hi. unfold Client.get_auth_url. rewrite Hc.
  destruct d as [|kv d']; [discriminate|].
  simpl negb. cbv iota. unfold getitem. rewrite Hi. unfold rbind, format_value.
  do 3 f_equal.
  destruct state as [s|], nonce as [n|]; simpl;
    repeat match goal with |- context [String.eqb ?x ""] => destruct (String.eqb x "") end;
    reflexivity.
Qed.

Lemma has_optional_param (name name' : string) (value : option string) :
  has_param name (optional_param name' value)
  <-> name = name' /\ truthy_opt value = true.
Proof.
  unfold has_param, optional_param. destruct value as [v|]; simpl.
  - destruct (String.eqb v ""); simpl.
    + split; [intros [x []]|intros [_ H]; discriminate].
    + split.
      * intros [x [H|[]]]. injection H as <- _. auto.
      * intros [-> _]. exists v. by left.
  - split; [intros [x []]|intros [_ H]; discriminate].
Qed.

Lemma has_param_app (name : string) (q q' : list (string * string)) :
  has_param name (q ++ q') <-> has_param name q \/ has_param name q'.
Proof.
  unfold has_param. split.
  - intros [v H]. apply in_app_or in H as [H|H]; eauto.
  - intros [[v H]|[v H]]; exists v; apply in_or_app; auto.
Qed.

Lemma has_param_fixed (name : string) (a b c' d : string) :
  name <> "client_id" -> name <> "redirect_uri" -> name <> "response_type" ->
  name <> "scope" ->
  ~ has_param name [ ("client_id", a); ("redirect_uri", b);
                     ("response_type", c'); ("scope", d) ].
Proof.
  intros H1 H2 H3 H4 [v H]. simpl in H.
  destruct H as [H|[H|[H|[H|[]]]]]; injection H as <- _; congruence.
Qed.

(** C4, as the code has it.  For a client whose configuration names the
    issuer, and an issuer and path free of ['?'] and ['#'], the query of the
    URL built by [get_auth_url] parses back to [client_id], [redirect_uri],
    [response_type=code] and [scope] as set at construction, followed by
    [state] and [nonce] when they were given and are not empty: the query
    has a [state] (resp. [nonce]) parameter exactly when the argument is
    truthy. *)
Theorem get_auth_url_round_trip (E : env) (c : Client.client)
    (state nonce : option string) (path issuer : string) d :
  Client.config c = PDict d ->
  dict_lookup "issuer" d = Some (PStr issuer) ->
  mem_char "?" (issuer ++ path) = false ->
  mem_char "#" (issuer ++ path) = false ->
  exists url,
    Client.get_auth_url E c state nonce path = Ok url
    /\ (let query := Urllib.parse_qsl true (Urllib.url_query url) in
        query = ([ ("client_id", Client.client_id c);
                   ("redirect_uri", Client.redirect_uri c);
                   ("response_type", "code");
                   ("scope", Client.scope c) ]
                 ++ optional_param "state" state ++ optional_param "nonce" nonce)%list
        /\ (has_param "state" query <-> truthy_opt state = true)
        /\ (has_param "nonce" query <-> truthy_opt nonce = true)).
Proof.
  intros Hc Hi Hq Hf. eexists. split; [by apply get_auth_url_value with (d := d)|].
  rewrite url_query_urlencode by assumption.
  rewrite parse_qsl_urlencode. simpl. split; [reflexivity|].
  split.
  - change (has_param "state"
              ([ ("client_id", Client.client_id c);
                 ("redirect_uri", Client.redirect_uri c);
                 ("response_type", "code"); ("scope", Client.scope c) ]
               ++ optional_param "state" state ++ optional_param "nonce" nonce)%list
            <-> truthy_opt state = true).
    rewrite !has_param_app, !has_optional_param. split.
    + intros [H|[[_ H]|[H _]]]; [|assumption|discriminate].
      exfalso. revert H. by apply has_param_fixed.
    + intros H. right. left. auto.
  - change (has_param "nonce"
              ([ ("client_id", Client.client_id c);
                 ("redirect_uri", Client.redirect_uri c);
                 ("response_type", "code"); ("scope", Client.scope c) ]
               ++ optional_param "state" state ++ optional_param "nonce" nonce)%list
            <-> truthy_opt nonce = true).
    rewrite !has_param_app, !has_optional_param. split.
    + intros [H|[[H _]|[_ H]]]; [|discriminate|assumption].
      exfalso. revert H. by apply has_param_fixed.
    + intros H. right. right. auto.
Qed.

Lemma get_auth_url_round_trip_witness :
  exists url,
    Client.get_auth_url idp demo_client (Some "af0ifjsldkj") None "/authorize" = Ok url
    /\ (let query := Urllib.parse_qsl true (Urllib.url_query url) in
        query = [ ("client_id", "abc");
                  ("redirect_uri", "https://app/callback");
                  ("response_type", "code");
                  ("scope", "openid profile email");
                  ("state", "af0ifjsldkj") ]
        /\ (has_param "state" query <-> truthy_opt (Some "af0ifjsldkj") = true)
        /\ (has_param "nonce" query <-> truthy_opt None = true)).
Proof.
  apply (get_auth_url_round_trip idp demo_client (Some "af0ifjsldkj") None "/authorize"
           "https://idp.example"
           [ ("issuer", PStr "https://idp.example");
             ("authorization_endpoint", PStr "https://idp.example/authorize");
             ("token_endpoint", PStr "https://idp.example/token");
             ("userinfo_endpoint", PStr "https://idp.example/userinfo") ]);
    reflexivity.
Defined.

(** C4 as stated fails: a caller that supplies the empty string as [state]
    gets a URL whose query has no [state] parameter. *)
Lemma empty_state_is_dropped :
  exists url,
    Client.get_auth_url idp demo_client (Some "") None "/authorize" = Ok url
    /\ Urllib.parse_qsl true (Urllib.url_query url)
       = [ ("client_id", "abc");
           ("redirect_uri", "https://app/callback");
           ("response_type", "code");
           ("scope", "openid profile email") ]
    /\ ~ has_param "state" (Urllib.parse_qsl true (Urllib.url_query url)).
Proof.
  eexists. split; [reflexivity|]. split; [reflexivity|].
  intros [v H]. vm_compute in H.
  destruct H as [H|[H|[H|[H|[]]]]]; discriminate.
Qed.

(** C8.  With issuer [https://idp.example], client [abc], redirect URI
    [https://app/callback] and scope [openid profile email], the login URL
    without state or nonce is the string of the scenario, character for
    character. *)
Theorem login_url_of_scenario (E : env) (c : Client.client) d :
  Client.config c = PDict d ->
  dict_lookup "issuer" d = Some (PStr "https://idp.example") ->
  Client.client_id c = "abc" ->
  Client.redirect_uri c = "https://app/callback" ->
  Client.scope c = "openid profile email" ->
  Client.get_login_url E c None None
  = Ok "https://idp.example/authorize?client_id=abc&redirect_uri=https%3A%2F%2Fapp%2Fcallback&response_type=code&scope=openid+profile+email"
  /\ Client.get_auth_url E c None None "/authorize" = Client.get_login_url E c None None.
Proof.
  intros Hc Hi Hid Hr Hs. split; [|reflexivity].
  unfold Client.get_login_url.
  rewrite (get_auth_url_value E c None None "/authorize" "https://idp.example" d Hc Hi).
  rewrite Hid, Hr, Hs. reflexivity.
Qed.

Lemma login_url_of_scenario_witness :
  Client.get_login_url idp demo_client None None
  = Ok "https://idp.example/authorize?client_id=abc&redirect_uri=https%3A%2F%2Fapp%2Fcallback&response_type=code&scope=openid+profile+email".
Proof.
  apply (login_url_of_scenario idp demo_client
           [ ("issuer", PStr "https://idp.example");
             ("authorization_endpoint", PStr "https://idp.example/authorize");
             ("token_endpoint", PStr "https://idp.example/token");
             ("userinfo_endpoint", PStr "https://idp.example/userinfo") ]);
    reflexivity.
Defined.

(** ** Logout without a session record *)






(** ** base64: decoding what the encoder wrote *)

Section Exhaustion.

Lemma all_bytes_complete (c : ascii) : In c all_bytes.
Proof.
  unfold all_bytes. apply in_map_iff. exists (nat_of_ascii c). split.
  - apply ascii_nat_embedding.
  - apply in_seq. pose proof (nat_ascii_bounded c). lia.
Qed.

Lemma forall_bytes (p : ascii -> bool) :
  forallb p all_bytes = true -> forall c, p c = true.
Proof.
  intros H c. rewrite forallb_forall in H. apply H, all_bytes_complete.
Qed.

Lemma forall_below (n : nat) (p : Z -> bool) :
  forallb p (below n) = true -> forall z, 0 <= z < Z.of_nat n -> p z = true.
Proof.
  intros H z Hz. rewrite forallb_forall in H. apply H.
  unfold below. apply in_map_iff. exists (Z.to_nat z). split; [lia|].
  apply in_seq. lia.
Qed.

Lemma forall_below_2 (n m : nat) (p : Z -> Z -> bool) :
  forallb (fun x => forallb (p x) (below m)) (below n) = true ->
  forall x y, 0 <= x < Z.of_nat n -> 0 <= y < Z.of_nat m -> p x y = true.
Proof.
  intros H x y Hx Hy.
  apply (forall_below m (p x)); [|assumption].
  by apply (forall_below n (fun x => forallb (p x) (below m))).
Qed.

Lemma forall_bytes_below (m : nat) (p : ascii -> Z -> bool) :
  forallb (fun b => forallb (p b) (below m)) all_bytes = true ->
  forall b y, 0 <= y < Z.of_nat m -> p b y = true.
Proof.
  intros H b y Hy.
  apply (forall_below m (p b)); [|assumption].
  by apply (forall_bytes (fun b => forallb (p b) (below m))).
Qed.

Lemma forall_bytes_below_2 (n m : nat) (p : ascii -> Z -> Z -> bool) :
  forallb (fun b => forallb (fun x => forallb (p b x) (below m)) (below n)) all_bytes
  = true ->
  forall b x y, 0 <= x < Z.of_nat n -> 0 <= y < Z.of_nat m -> p b x y = true.
Proof.
  intros H b x y Hx Hy.
  apply (forall_below_2 n m (p b)); [|assumption|assumption].
  by apply (forall_bytes (fun b => forallb (fun x => forallb (p b x) (below m)) (below n))).
Qed.

End Exhaustion.

Section Base64RoundTrip.
Import Base64.

(** The character the decoder receives for a sextet written by the
    URL-safe encoder. *)
Local Abbreviation sym z := (Client.translate_table (b64url_char z)).

Lemma sym_decodes (z : Z) :
  0 <= z < 64 ->
  Ascii.eqb (sym z) "=" = false /\ table_a2b_base64 (sym z) = Some z
  /\ (code (sym z) <? 128) = true.
Proof.
  intros Hz.
  pose proof (forall_below 64
    (fun z => negb (Ascii.eqb (sym z) "=")
              && match table_a2b_base64 (sym z) with
                 | Some v => v =? z
                 | None => false
                 end
              && (code (sym z) <? 128))) as H.
  specialize (H ltac:(vm_compute; reflexivity) z Hz). cbv beta in H.
  apply andb_true_iff in H as [H H3]. apply andb_true_iff in H as [H1 H2].
  apply negb_true_iff in H1.
  destruct (table_a2b_base64 (sym z)) as [v|]; [|discriminate].
  apply Z.eqb_eq in H2. subst v. auto.
Qed.

(** One data character moves the decoder one position ahead. *)
Lemma loop_data (z : Z) (rest : string) (quad_pos : nat) (leftchar : Z) (pads n : nat) :
  0 <= z < 64 ->
  a2b_loop (String (sym z) rest) quad_pos leftchar pads n
  = match quad_pos with
    | O => a2b_loop rest 1 z 0 n
    | S O => rbind (a2b_loop rest 2 (Z.land z 15) 0 (S n))
               (prepend (to_byte (Z.lor (Z.shiftl leftchar 2) (Z.shiftr z 4))))
    | S (S O) => rbind (a2b_loop rest 3 (Z.land z 3) 0 (S n))
                   (prepend (to_byte (Z.lor (Z.shiftl leftchar 4) (Z.shiftr z 2))))
    | _ => rbind (a2b_loop rest 0 0 0 (S n))
             (prepend (to_byte (Z.lor (Z.shiftl leftchar 6) z)))
    end.
Proof.
  intros Hz. destruct (sym_decodes z Hz) as (He & Ht & _).
  cbn [a2b_loop]. rewrite He, Ht. reflexivity.
Qed.

(** Padding: ignored between groups, final inside one. *)
Lemma loop_pads_0 (k : nat) (leftchar : Z) (pads n : nat) :
  a2b_loop (repeat_char "=" k) 0 leftchar pads n = Ok "".
Proof. induction k as [|k IH]; [reflexivity|]. cbn [repeat_char a2b_loop]. exact IH. Qed.

Lemma loop_pads_2 (k : nat) (leftchar : Z) (n : nat) :
  (2 <= k)%nat -> a2b_loop (repeat_char "=" k) 2 leftchar 0 n = Ok "".
Proof. intros H. destruct k as [|[|k]]; [lia|lia|reflexivity]. Qed.

Lemma loop_pads_3 (k : nat) (leftchar : Z) (n : nat) :
  (1 <= k)%nat -> a2b_loop (repeat_char "=" k) 3 leftchar 0 n = Ok "".
Proof. intros H. destruct k as [|k]; [lia|reflexivity]. Qed.

Lemma translate_pads (k : nat) :
  map_chars Client.translate_table (repeat_char "=" k) = repeat_char "=" k.
Proof. induction k as [|k IH]; [reflexivity|]. cbn [repeat_char map_chars]. by rewrite IH. Qed.

Lemma is_ascii_pads (k : nat) : is_ascii (repeat_char "=" k) = true.
Proof. induction k as [|k IH]; [reflexivity|]. cbn [repeat_char is_ascii]. by rewrite IH. Qed.

(** *** The sextets of a group and the bytes they give back *)

Lemma low_bits (b : ascii) :
  0 <= Z.land (code b) 3 < 4 /\ 0 <= Z.land (code b) 15 < 16
  /\ 0 <= Z.shiftr (code b) 4 < 16 /\ 0 <= Z.shiftr (code b) 6 < 4
  /\ 0 <= Z.shiftr (code b) 2 < 64 /\ 0 <= Z.land (code b) 63 < 64.
Proof.
  pose proof (forall_bytes
    (fun b => (0 <=? Z.land (code b) 3) && (Z.land (code b) 3 <? 4)
              && (0 <=? Z.land (code b) 15) && (Z.land (code b) 15 <? 16)
              && (0 <=? Z.shiftr (code b) 4) && (Z.shiftr (code b) 4 <? 16)
              && (0 <=? Z.shiftr (code b) 6) && (Z.shiftr (code b) 6 <? 4)
              && (0 <=? Z.shiftr (code b) 2) && (Z.shiftr (code b) 2 <? 64)
              && (0 <=? Z.land (code b) 63) && (Z.land (code b) 63 <? 64))
    ltac:(vm_compute; reflexivity) b) as H.
  cbv beta in H. repeat (apply andb_true_iff in H as [H ?]).
  repeat match goal with
         | H : (_ <=? _) = true |- _ => apply Z.leb_le in H
         | H : (_ <? _) = true |- _ => apply Z.ltb_lt in H
         end.
  lia.
Qed.

Lemma sextet_2_bound (lo hi : Z) :
  0 <= lo < 4 -> 0 <= hi < 16 -> 0 <= Z.lor (Z.shiftl lo 4) hi < 64.
Proof.
  intros Hlo Hhi.
  pose proof (forall_below_2 4 16
    (fun lo hi => (0 <=? Z.lor (Z.shiftl lo 4) hi) && (Z.lor (Z.shiftl lo 4) hi <? 64))
    ltac:(vm_compute; reflexivity) lo hi Hlo Hhi) as H.
  cbv beta in H.
  apply andb_true_iff in H as [H1 H2]. apply Z.leb_le in H1. apply Z.ltb_lt in H2. lia.
Qed.

Lemma sextet_3_bound (lo hi : Z) :
  0 <= lo < 16 -> 0 <= hi < 4 -> 0 <= Z.lor (Z.shiftl lo 2) hi < 64.
Proof.
  intros Hlo Hhi.
  pose proof (forall_below_2 16 4
    (fun lo hi => (0 <=? Z.lor (Z.shiftl lo 2) hi) && (Z.lor (Z.shiftl lo 2) hi <? 64))
    ltac:(vm_compute; reflexivity) lo hi Hlo Hhi) as H.
  cbv beta in H.
  apply andb_true_iff in H as [H1 H2]. apply Z.leb_le in H1. apply Z.ltb_lt in H2. lia.
Qed.

Lemma shifted_bound_4 (lo : Z) : 0 <= lo < 4 -> 0 <= Z.shiftl lo 4 < 64.
Proof. intros H. rewrite Z.shiftl_mul_pow2 by lia. change (2 ^ 4) with 16. lia. Qed.

Lemma shifted_bound_2 (lo : Z) : 0 <= lo < 16 -> 0 <= Z.shiftl lo 2 < 64.
Proof. intros H. rewrite Z.shiftl_mul_pow2 by lia. change (2 ^ 2) with 4. lia. Qed.

(** First byte: the six high bits come from the first sextet, the two low
    ones from the top of the second. *)
Lemma byte_1 (b1 : ascii) (hi : Z) :
  0 <= hi < 16 ->
  to_byte (Z.lor (Z.shiftl (Z.shiftr (code b1) 2) 2)
                 (Z.shiftr (Z.lor (Z.shiftl (Z.land (code b1) 3) 4) hi) 4)) = b1.
Proof.
  intros Hhi. apply Ascii.eqb_eq.
  apply (forall_bytes_below 16 (fun b1 hi =>
      Ascii.eqb (to_byte (Z.lor (Z.shiftl (Z.shiftr (code b1) 2) 2)
                   (Z.shiftr (Z.lor (Z.shiftl (Z.land (code b1) 3) 4) hi) 4))) b1));
    [vm_compute; reflexivity|assumption].
Qed.

Lemma byte_1_alone (b1 : ascii) :
  to_byte (Z.lor (Z.shiftl (Z.shiftr (code b1) 2) 2)
                 (Z.shiftr (Z.shiftl (Z.land (code b1) 3) 4) 4)) = b1.
Proof.
  apply Ascii.eqb_eq.
  apply (forall_bytes (fun b1 =>
      Ascii.eqb (to_byte (Z.lor (Z.shiftl (Z.shiftr (code b1) 2) 2)
                   (Z.shiftr (Z.shiftl (Z.land (code b1) 3) 4) 4))) b1)).
  vm_compute; reflexivity.
Qed.

(** Second byte: four bits from the second sextet, four from the third. *)
Lemma byte_2 (b2 : ascii) (lo hi : Z) :
  0 <= lo < 4 -> 0 <= hi < 4 ->
  to_byte (Z.lor (Z.shiftl (Z.land (Z.lor (Z.shiftl lo 4) (Z.shiftr (code b2) 4)) 15) 4)
                 (Z.shiftr (Z.lor (Z.shiftl (Z.land (code b2) 15) 2) hi) 2)) = b2.
Proof.
  intros Hlo Hhi. apply Ascii.eqb_eq.
  apply (forall_bytes_below_2 4 4 (fun b2 lo hi =>
      Ascii.eqb
        (to_byte (Z.lor (Z.shiftl (Z.land (Z.lor (Z.shiftl lo 4)
                                             (Z.shiftr (code b2) 4)) 15) 4)
                        (Z.shiftr (Z.lor (Z.shiftl (Z.land (code b2) 15) 2) hi) 2))) b2));
    [vm_compute; reflexivity|assumption|assumption].
Qed.

Lemma byte_2_alone (b2 : ascii) (lo : Z) :
  0 <= lo < 4 ->
  to_byte (Z.lor (Z.shiftl (Z.land (Z.lor (Z.shiftl lo 4) (Z.shiftr (code b2) 4)) 15) 4)
                 (Z.shiftr (Z.shiftl (Z.land (code b2) 15) 2) 2)) = b2.
Proof.
  intros Hlo. apply Ascii.eqb_eq.
  apply (forall_bytes_below 4 (fun b2 lo =>
      Ascii.eqb
        (to_byte (Z.lor (Z.shiftl (Z.land (Z.lor (Z.shiftl lo 4)
                                             (Z.shiftr (code b2) 4)) 15) 4)
                        (Z.shiftr (Z.shiftl (Z.land (code b2) 15) 2) 2))) b2));
    [vm_compute; reflexivity|assumption].
Qed.

(** Third byte: two bits from the third sextet, six from the fourth. *)
Lemma byte_3 (b3 : ascii) (lo : Z) :
  0 <= lo < 16 ->
  to_byte (Z.lor (Z.shiftl (Z.land (Z.lor (Z.shiftl lo 2) (Z.shiftr (code b3) 6)) 3) 6)
                 (Z.land (code b3) 63)) = b3.
Proof.
  intros Hlo. apply Ascii.eqb_eq.
  apply (forall_bytes_below 16 (fun b3 lo =>
      Ascii.eqb
        (to_byte (Z.lor (Z.shiftl (Z.land (Z.lor (Z.shiftl lo 2)
                                             (Z.shiftr (code b3) 6)) 3) 6)
                        (Z.land (code b3) 63))) b3));
    [vm_compute; reflexivity|assumption].
Qed.

(** *** Whole strings *)

Lemma string_triples_ind (P : string -> Prop) :
  P "" ->
  (forall b1, P (String b1 "")) ->
  (forall b1 b2, P (String b1 (String b2 ""))) ->
  (forall b1 b2 b3 rest, P rest -> P (String b1 (String b2 (String b3 rest)))) ->
  forall s, P s.
Proof.
  intros H0 H1 H2 H3 s.
  assert (H : P s /\ (forall a, P (String a s)) /\ (forall a b, P (String a (String b s)))).
  { induction s as [|c s (IH0 & IH1 & IH2)]; [auto|].
    split; [apply IH1|]. split; [intros a; apply IH2|].
    intros a b. by apply H3. }
  apply H.
Qed.

Lemma padding_of_group (b1 b2 b3 : ascii) (rest : string) :
  b64url_padding (String b1 (String b2 (String b3 rest))) = b64url_padding rest.
Proof.
  unfold b64url_padding. cbn [String.length].
  replace (S (S (S (String.length rest)))) with (String.length rest + 1 * 3)%nat by lia.
  by rewrite Nat.Div0.mod_add.
Qed.

Lemma rbind_prepend_3 (r : result string) (b1 b2 b3 : ascii) :
  rbind (rbind (rbind r (prepend b3)) (prepend b2)) (prepend b1)
  = rbind r (fun out => Ok (String b1 (String b2 (String b3 out)))).
Proof. destruct r; reflexivity. Qed.

(** The decoder, fed the translated encoding of [bytes] followed by at
    least the padding its length calls for, returns [bytes]. *)
Lemma decode_encoded (bytes : string) :
  forall (k : nat) (leftchar : Z) (pads n : nat),
    (b64url_padding bytes <= k)%nat ->
    a2b_loop (map_chars Client.translate_table
                (b64url_encode bytes ++ repeat_char "=" k)) 0 leftchar pads n
    = Ok bytes.
Proof.
  induction bytes as [|b1|b1 b2|b1 b2 b3 rest IH] using string_triples_ind;
    intros k leftchar pads n Hk.
  - cbn [b64url_encode]. rewrite append_empty_l, translate_pads. apply loop_pads_0.
  - cbn [b64url_encode]. rewrite !append_cons, append_empty_l.
    cbn [map_chars]. rewrite translate_pads.
    destruct (low_bits b1) as (H3 & _ & _ & _ & H2 & _).
    rewrite loop_data by assumption.
    rewrite loop_data by (by apply shifted_bound_4).
    rewrite loop_pads_2 by exact Hk.
    cbn [rbind prepend]. by rewrite byte_1_alone.
  - cbn [b64url_encode]. rewrite !append_cons, append_empty_l.
    cbn [map_chars]. rewrite translate_pads.
    destruct (low_bits b1) as (H13 & _ & _ & _ & H12 & _).
    destruct (low_bits b2) as (_ & H215 & H24 & _ & _ & _).
    rewrite loop_data by assumption.
    rewrite loop_data by (by apply sextet_2_bound).
    rewrite loop_data by (by apply shifted_bound_2).
    rewrite loop_pads_3 by exact Hk.
    cbn [rbind prepend].
    rewrite (byte_1 b1 _ H24), (byte_2_alone b2 _ H13). reflexivity.
  - cbn [b64url_encode]. rewrite !append_cons. cbn [map_chars].
    destruct (low_bits b1) as (H13 & _ & _ & _ & H12 & _).
    destruct (low_bits b2) as (_ & H215 & H24 & _ & _ & _).
    destruct (low_bits b3) as (_ & _ & _ & H36 & _ & H363).
    rewrite loop_data by assumption.
    rewrite loop_data by (by apply sextet_2_bound).
    rewrite loop_data by (by apply sextet_3_bound).
    rewrite loop_data by assumption.
    rewrite IH by (by rewrite <- (padding_of_group b1 b2 b3 rest)).
    cbn [rbind prepend].
    rewrite (byte_1 b1 _ H24), (byte_2 b2 _ _ H13 H36), (byte_3 b3 _ H215). reflexivity.
Qed.

Lemma is_ascii_app (a b : string) : is_ascii (a ++ b) = is_ascii a && is_ascii b.
Proof.
  induction a as [|x a IH]; rewrite ?append_cons, ?append_empty_l; cbn [is_ascii];
    [reflexivity|].
  rewrite IH. by rewrite andb_assoc.
Qed.

Lemma is_ascii_encoded (bytes : string) :
  is_ascii (map_chars Client.translate_table (b64url_encode bytes)) = true.
Proof.
  induction bytes as [|b1|b1 b2|b1 b2 b3 rest IH] using string_triples_ind;
    cbn [b64url_encode map_chars is_ascii]; [reflexivity| | |].
  - destruct (low_bits b1) as (H13 & _ & _ & _ & H12 & _).
    destruct (sym_decodes _ H12) as (_ & _ & ->).
    destruct (sym_decodes _ (shifted_bound_4 _ H13)) as (_ & _ & ->). reflexivity.
  - destruct (low_bits b1) as (H13 & _ & _ & _ & H12 & _).
    destruct (low_bits b2) as (_ & H215 & H24 & _ & _ & _).
    destruct (sym_decodes _ H12) as (_ & _ & ->).
    destruct (sym_decodes _ (sextet_2_bound _ _ H13 H24)) as (_ & _ & ->).
    destruct (sym_decodes _ (shifted_bound_2 _ H215)) as (_ & _ & ->). reflexivity.
  - destruct (low_bits b1) as (H13 & _ & _ & _ & H12 & _).
    destruct (low_bits b2) as (_ & H215 & H24 & _ & _ & _).
    destruct (low_bits b3) as (_ & _ & _ & H36 & _ & H363).
    destruct (sym_decodes _ H12) as (_ & _ & ->).
    destruct (sym_decodes _ (sextet_2_bound _ _ H13 H24)) as (_ & _ & ->).
    destruct (sym_decodes _ (sextet_3_bound _ _ H215 H36)) as (_ & _ & ->).
    destruct (sym_decodes _ H363) as (_ & _ & ->). rewrite IH. reflexivity.
Qed.

(** [b64decode] after the translation undoes [b64url_encode], whatever
    padding follows as long as it is enough. *)
Lemma b64decode_encoded (bytes : string) (k : nat) :
  (b64url_padding bytes <= k)%nat ->
  b64decode (map_chars Client.translate_table
               (b64url_encode bytes ++ repeat_char "=" k)) = Ok bytes.
Proof.
  intros Hk. unfold b64decode.
  rewrite map_chars_app, is_ascii_app, is_ascii_encoded, translate_pads, is_ascii_pads.
  cbn [andb]. unfold a2b_base64.
  rewrite <- (translate_pads k), <- map_chars_app. by apply decode_encoded.
Qed.

Lemma length_app (a b : string) :
  String.length (a ++ b) = (String.length a + String.length b)%nat.
Proof.
  induction a as [|x a IH]; rewrite ?append_cons, ?append_empty_l; cbn [String.length];
    [reflexivity|].
  by rewrite IH.
Qed.

Lemma length_repeat_char (c : ascii) (k : nat) : String.length (repeat_char c k) = k.
Proof. induction k as [|k IH]; cbn [repeat_char String.length]; [reflexivity|]. by rewrite IH. Qed.

Lemma repeat_char_add (c : ascii) (j k : nat) :
  repeat_char c j ++ repeat_char c k = repeat_char c (j + k).
Proof.
  induction j as [|j IH]; [reflexivity|].
  cbn [repeat_char Nat.add]. rewrite append_cons. by rewrite IH.
Qed.

(** The padded encoding fills whole groups of four characters. *)
Lemma padded_length (bytes : string) :
  ((String.length (b64url_encode bytes) + b64url_padding bytes) mod 4 = 0)%nat.
Proof.
  induction bytes as [|b1|b1 b2|b1 b2 b3 rest IH] using string_triples_ind;
    [reflexivity|reflexivity|reflexivity|].
  rewrite padding_of_group. cbn [b64url_encode String.length].
  replace (S (S (S (S (String.length (b64url_encode rest))))) + b64url_padding rest)%nat
    with ((String.length (b64url_encode rest) + b64url_padding rest) + 1 * 4)%nat by lia.
  by rewrite Nat.Div0.mod_add.
Qed.

Lemma padding_bound (bytes : string) : (b64url_padding bytes <= 2)%nat.
Proof.
  unfold b64url_padding.
  destruct (String.length bytes mod 3)%nat as [|[|[|?]]]; lia.
Qed.

(** What [validate_id_token] appends to a segment, already padded or
    not, is enough padding for the decoder. *)
Lemma enough_padding (bytes : string) (j : nat) :
  let payload := b64url_encode bytes ++ repeat_char "=" j in
  (b64url_padding bytes <= j + (4 - String.length payload mod 4))%nat.
Proof.
  intros payload. subst payload. rewrite length_app, length_repeat_char.
  pose proof (padded_length bytes) as Hp.
  pose proof (padding_bound bytes) as Hb.
  set (L := String.length (b64url_encode bytes)) in *.
  set (P := b64url_padding bytes) in *.
  pose proof (Nat.div_mod_eq (L + P) 4) as H1.
  pose proof (Nat.div_mod_eq (L + j) 4) as H2.
  pose proof (Nat.mod_upper_bound (L + j) 4 ltac:(lia)) as H3.
  rewrite Hp in H1. lia.
Qed.

End Base64RoundTrip.

(** ** The ID token decoder *)

Lemma validate_id_token_of_segments (E : env) (id_token header signature bytes : string)
    (j : nat) :
  split_on "." id_token
  = [header; Base64.b64url_encode bytes ++ repeat_char "=" j; signature] ->
  Client.validate_id_token E id_token
  = rcatch (json_loads E bytes)
      (fun e => Raise (Exception ("Failed to decode ID token: " ++ str_exn e))).
Proof.
  intros Hs. unfold Client.validate_id_token. rewrite Hs.
  cbn [List.length Nat.eqb negb nth].
  rewrite append_assoc, repeat_char_add.
  rewrite b64decode_encoded by apply enough_padding.
  reflexivity.
Qed.

(** C3.  When the token splits on ['.'] into exactly three segments and the
    middle one is the base64url encoding of a payload (with or without
    ['='] padding, so also when its length is already a multiple of four
    and the code appends four ['=']), [validate_id_token] returns what
    [json.loads] makes of the payload: the parsed JSON when the payload is
    JSON.  When the number of segments is not three it fails with the
    format error. *)
Theorem validate_id_token_decodes (E : env) (id_token : string) :
  (forall header signature bytes j,
      split_on "." id_token
      = [header; Base64.b64url_encode bytes ++ repeat_char "=" j; signature] ->
      Client.validate_id_token E id_token
      = rcatch (json_loads E bytes)
          (fun e => Raise (Exception ("Failed to decode ID token: " ++ str_exn e)))
      /\ (forall claims, json_loads E bytes = Ok claims ->
                         Client.validate_id_token E id_token = Ok claims))
  /\ (List.length (split_on "." id_token) <> 3%nat ->
      Client.validate_id_token E id_token = Raise (Exception "Invalid ID token format")).
Proof.
  split.
  - intros header signature bytes j Hs.
    rewrite (validate_id_token_of_segments E id_token header signature bytes j Hs).
    split; [reflexivity|]. intros claims ->. reflexivity.
  - intros Hn. unfold Client.validate_id_token.
    apply Nat.eqb_neq in Hn. rewrite Hn. reflexivity.
Qed.

Lemma validate_id_token_decodes_witness :
  Client.validate_id_token idp "a.e30.c" = Ok (PDict [])
  /\ Client.validate_id_token idp "a.e30" = Raise (Exception "Invalid ID token format").
Proof.
  split.
  - destruct (validate_id_token_decodes idp "a.e30.c") as [Hdecode _].
    destruct (Hdecode "a" "c" "{}" 0%nat eq_refl) as [_ Hclaims].
    apply Hclaims. reflexivity.
  - destruct (validate_id_token_decodes idp "a.e30") as [_ Hformat].
    apply Hformat. simpl. lia.
Defined.

(* ===================================================================== *)
(** * Further properties of the package *)
(* ===================================================================== *)

Import Blocks.

(** ** The client's network operations *)

Section GuardedRequests.

(** What the shared request block does, by the transport's answer. *)
Lemma guarded_request_spec (E : env) (req : request) (prefix : string) (w : world) :
  let answer := send E (http_log w) req in
  let result := fst (guarded_request E req prefix w) in
  snd (guarded_request E req prefix w) = World (session w) (http_log w ++ [req])
  /\ (forall msg, answer = Failed msg -> result = Raise (Exception (prefix ++ msg)))
  /\ (forall r, answer = Responded r -> 400 <= status_code r < 600 ->
        exists msg, result = Raise (Exception (prefix ++ msg)))
  /\ (forall r v, answer = Responded r -> ~ (400 <= status_code r < 600) ->
        body_json r = inl v -> result = Ok v)
  /\ (forall r msg, answer = Responded r -> ~ (400 <= status_code r < 600) ->
        body_json r = inr msg ->
        result = Raise (if json_error_is_request_exception E
                        then Exception (prefix ++ msg) else JSONDecodeError msg)).
Proof.
  intros answer result. subst answer result.
  unfold guarded_request, try_except, bind, http, lift.
  destruct (send E (http_log w) req) as [r|msg] eqn:Hsend; simpl.
  - destruct (raise_for_status r) as [[]|e] eqn:Hst.
    + assert (Hok : ~ (400 <= status_code r < 600)).
      { intros Hr. destruct (raise_for_status_error r Hr) as [m Hm]. congruence. }
      unfold json. destruct (body_json r) as [v|m] eqn:Hb; simpl.
      * repeat split; try (intros; discriminate).
        -- intros r' Hr Hr'. injection Hr as <-. contradiction.
        -- intros r' v' Hr _ Hb'. injection Hr as <-. congruence.
        -- intros r' m' Hr _ Hb'. injection Hr as <-. congruence.
      * destruct (json_error_is_request_exception E); simpl;
          repeat split; try (intros; discriminate);
          try (intros r' Hr Hr'; injection Hr as <-; contradiction);
          try (intros r' v' Hr _ Hb'; injection Hr as <-; congruence);
          intros r' m' Hr _ Hb'; injection Hr as <-; congruence.
    + assert (H4 : 400 <= status_code r < 600).
      { destruct (Z_le_dec 400 (status_code r)) as [Hlo|Hlo];
          destruct (Z_lt_dec (status_code r) 600) as [Hhi|Hhi]; try lia;
          rewrite raise_for_status_pass in Hst by lia; discriminate. }
      destruct (raise_for_status_error r H4) as [m Hm].
      rewrite Hst in Hm. injection Hm as ->. simpl.
      repeat split; try (intros; discriminate).
      * intros r' Hr _. injection Hr as <-. eauto.
      * intros r' v' Hr Hn. injection Hr as <-. contradiction.
      * intros r' m' Hr Hn. injection Hr as <-. contradiction.
  - repeat split; try (intros; discriminate).
    intros m Hm. injection Hm as <-. reflexivity.
Qed.

Lemma fetch_config_block (E : env) (self : Client.client) (w : world) :
  Client._fetch_config E self w
  = (let '(r, w') := guarded_request E (GET (PStr (Client.discovery_url self)) [])
                       "Failed to fetch OIDC configuration: " w in
     (rbind r (fun cfg => Ok (Client.set_config self cfg)), w')).
Proof.
  unfold Client._fetch_config, guarded_request, try_except, bind, http, lift, ret, raise.
  simpl. repeat (case_scrutinee; simpl; try reflexivity).
Qed.

Lemma exchange_block (E : env) (self : Client.client) (code : string) d endpoint (w : world) :
  Client.config self = PDict d ->
  dict_lookup "token_endpoint" d = Some endpoint ->
  Client.exchange_code_for_tokens E self code w
  = guarded_request E (token_request self endpoint code)
      "Failed to exchange code for tokens: " w.
Proof.
  intros Hc Hl. unfold Client.exchange_code_for_tokens. rewrite Hc.
  destruct d as [|kv d']; [discriminate|].
  simpl negb. cbv iota. unfold bind at 1, lift at 1, getitem. rewrite Hl. reflexivity.
Qed.

Lemma userinfo_block (E : env) (self : Client.client) (token : string) d endpoint
    (w : world) :
  Client.config self = PDict d ->
  dict_lookup "userinfo_endpoint" d = Some endpoint ->
  Client.get_userinfo E self (PStr token) w
  = guarded_request E (userinfo_request endpoint token) "Failed to get user info: " w.
Proof.
  intros Hc Hl. unfold Client.get_userinfo. rewrite Hc.
  destruct d as [|kv d']; [discriminate|].
  simpl negb. cbv iota. unfold bind at 1, lift at 1, getitem. rewrite Hl. reflexivity.
Qed.

End GuardedRequests.

Import Sample2.

(** X1.  The constructor accepts a discovery document that is falsy (an
    empty object, [null]): the client exists, its configuration is that
    document, and every operation then fails with "OIDC configuration not
    loaded"; the two network operations fail before any request is made. *)
Theorem falsy_discovery_document_is_accepted_but_unusable
    (E : env) (client_id client_secret redirect_uri discovery_url scope : string)
    (w : world) (r : response) (document : pyval) :
  send E (http_log w) (GET (PStr discovery_url) []) = Responded r ->
  ~ (400 <= status_code r < 600) ->
  body_json r = inl document ->
  truthy document = false ->
  exists c,
    fst (Client.init E client_id client_secret redirect_uri discovery_url scope w) = Ok c
    /\ Client.config c = document
    /\ (forall state nonce path,
          Client.get_auth_url E c state nonce path = Raise not_loaded)
    /\ (forall hint target, Client.get_logout_url E c hint target = Raise not_loaded)
    /\ (forall code w', Client.exchange_code_for_tokens E c code w' = (Raise not_loaded, w'))
    /\ (forall token w', Client.get_userinfo E c token w' = (Raise not_loaded, w')).
Proof.
  intros Hsend Hst Hb Hf.
  set (c0 := Client.NextIdentityClient client_id client_secret redirect_uri
               discovery_url scope PNone).
  exists (Client.set_config c0 document).
  split.
  - unfold Client.init. fold c0. rewrite fetch_config_block.
    destruct (guarded_request_spec E (GET (PStr discovery_url) [])
                "Failed to fetch OIDC configuration: " w) as (_ & _ & _ & Hok & _).
    specialize (Hok r document Hsend Hst Hb). simpl in Hok.
    change (Client.discovery_url c0) with discovery_url.
    destruct (guarded_request E (GET (PStr discovery_url) [])
                "Failed to fetch OIDC configuration: " w) as [res w'].
    simpl in Hok. subst res. reflexivity.
  - split; [reflexivity|].
    split; [|split; [|split]]; intros.
    + unfold Client.get_auth_url.
      change (Client.config (Client.set_config c0 document)) with document.
      by rewrite Hf.
    + unfold Client.get_logout_url.
      change (Client.config (Client.set_config c0 document)) with document.
      by rewrite Hf.
    + unfold Client.exchange_code_for_tokens.
      change (Client.config (Client.set_config c0 document)) with document.
      by rewrite Hf.
    + unfold Client.get_userinfo.
      change (Client.config (Client.set_config c0 document)) with document.
      by rewrite Hf.
Qed.

Lemma falsy_discovery_document_is_accepted_but_unusable_witness :
  exists c,
    fst (Client.init idp_empty_document "abc" "s3cret" "https://app/callback"
           "https://idp.example/.well-known/openid-configuration"
           "openid profile email" anonymous) = Ok c
    /\ Client.config c = PDict []
    /\ (forall state nonce path,
          Client.get_auth_url idp_empty_document c state nonce path = Raise not_loaded)
    /\ (forall hint target,
          Client.get_logout_url idp_empty_document c hint target = Raise not_loaded)
    /\ (forall code w',
          Client.exchange_code_for_tokens idp_empty_document c code w'
          = (Raise not_loaded, w'))
    /\ (forall token w',
          Client.get_userinfo idp_empty_document c token w' = (Raise not_loaded, w')).
Proof.
  apply (falsy_discovery_document_is_accepted_but_unusable idp_empty_document
           "abc" "s3cret" "https://app/callback"
           "https://idp.example/.well-known/openid-configuration"
           "openid profile email" anonymous
           (Response 200 "OK" "" (inl (PDict []))) (PDict []));
    try reflexivity.
  simpl. lia.
Defined.

(** X2.  With a loaded configuration that lacks the endpoint an operation
    needs, the operation raises the [KeyError] of the lookup itself, not a
    wrapped exception, and the network operations make no request.  In the
    Flask callback that [KeyError] becomes the 400 answer. *)
Theorem missing_endpoint_raises_key_error (E : env) (self : Client.client) d (w : world) :
  Client.config self = PDict d ->
  d <> [] ->
  (dict_lookup "issuer" d = None ->
   forall state nonce path,
     Client.get_auth_url E self state nonce path = Raise (KeyError "issuer"))
  /\ (dict_lookup "token_endpoint" d = None ->
      forall code,
        Client.exchange_code_for_tokens E self code w
        = (Raise (KeyError "token_endpoint"), w)
        /\ (code <> "" ->
            forall key,
              Flask.auth_callback E (Flask.NextIdentityFlask self key) (Some code) w
              = (Ok (Flask.Text "Authentication error: 'token_endpoint'" 400), w)))
  /\ (dict_lookup "userinfo_endpoint" d = None ->
      forall token,
        Client.get_userinfo E self token w = (Raise (KeyError "userinfo_endpoint"), w)).
Proof.
  intros Hc Hd. destruct d as [|kv d']; [congruence|]. clear Hd.
  split; [|split].
  - intros Hl state nonce path. unfold Client.get_auth_url. rewrite Hc.
    simpl negb. cbv iota. unfold getitem. rewrite Hl. reflexivity.
  - intros Hl code.
    assert (Hx : Client.exchange_code_for_tokens E self code w
                 = (Raise (KeyError "token_endpoint"), w)).
    { unfold Client.exchange_code_for_tokens. rewrite Hc.
      simpl negb. cbv iota. unfold bind, lift, getitem. rewrite Hl. reflexivity. }
    split; [exact Hx|].
    intros Hne key.
    apply (flask_callback_failure E (Flask.NextIdentityFlask self key) code w
             (KeyError "token_endpoint") w Hne).
    by apply exchange_failed.
  - intros Hl token. unfold Client.get_userinfo. rewrite Hc.
    simpl negb. cbv iota. unfold bind, lift, getitem. rewrite Hl. reflexivity.
Qed.

Lemma missing_endpoint_raises_key_error_witness :
  Client.exchange_code_for_tokens idp issuer_only_client "xyz" pending_login
  = (Raise (KeyError "token_endpoint"), pending_login)
  /\ Flask.auth_callback idp (Flask.NextIdentityFlask issuer_only_client auth_key)
       (Some "xyz") pending_login
     = (Ok (Flask.Text "Authentication error: 'token_endpoint'" 400), pending_login).
Proof.
  destruct (missing_endpoint_raises_key_error idp issuer_only_client
              [("issuer", PStr "https://idp.example")] pending_login)
    as (_ & Htoken & _); [reflexivity|discriminate|].
  destruct (Htoken eq_refl "xyz") as [Hx Hcallback].
  split; [exact Hx|]. apply Hcallback. discriminate.
Defined.

(** X3.  With a token endpoint configured, [exchange_code_for_tokens]
    makes exactly one request: a POST to that endpoint of the five form
    fields, the code and the client's credentials among them.  It leaves the
    session alone.  A transport failure or a 4xx/5xx answer is raised as
    "Failed to exchange code for tokens: ..."; any other answer with a JSON
    body is returned as parsed, whether or not it holds an access token. *)
Theorem exchange_posts_the_code_once (E : env) (self : Client.client) (code : string)
    d (endpoint : pyval) (w : world) :
  Client.config self = PDict d ->
  dict_lookup "token_endpoint" d = Some endpoint ->
  let request :=
    POST endpoint [ ("grant_type", "authorization_code"); ("code", code);
                    ("redirect_uri", Client.redirect_uri self);
                    ("client_id", Client.client_id self);
                    ("client_secret", Client.client_secret self) ] in
  let answer := send E (http_log w) request in
  let result := fst (Client.exchange_code_for_tokens E self code w) in
  snd (Client.exchange_code_for_tokens E self code w)
  = World (session w) (http_log w ++ [request])
  /\ (forall msg, answer = Failed msg ->
        result = Raise (Exception ("Failed to exchange code for tokens: " ++ msg)))
  /\ (forall r, answer = Responded r -> 400 <= status_code r < 600 ->
        exists msg,
          result = Raise (Exception ("Failed to exchange code for tokens: " ++ msg)))
  /\ (forall r tokens, answer = Responded r -> ~ (400 <= status_code r < 600) ->
        body_json r = inl tokens -> result = Ok tokens).
Proof.
  intros Hc Hl request answer result. subst result answer.
  rewrite (exchange_block E self code d endpoint w Hc Hl).
  destruct (guarded_request_spec E (token_request self endpoint code)
              "Failed to exchange code for tokens: " w) as (H1 & H2 & H3 & H4 & _).
  repeat split; assumption.
Qed.

Lemma exchange_posts_the_code_once_witness :
  (exists msg,
     fst (Client.exchange_code_for_tokens idp_rejects_code demo_client "xyz" anonymous)
     = Raise (Exception ("Failed to exchange code for tokens: " ++ msg)))
  /\ snd (Client.exchange_code_for_tokens idp_rejects_code demo_client "xyz" anonymous)
     = World ∅ [ POST (PStr "https://idp.example/token")
                   [ ("grant_type", "authorization_code"); ("code", "xyz");
                     ("redirect_uri", "https://app/callback"); ("client_id", "abc");
                     ("client_secret", "s3cret") ] ].
Proof.
  destruct (exchange_posts_the_code_once idp_rejects_code demo_client "xyz"
              [ ("issuer", PStr "https://idp.example");
                ("authorization_endpoint", PStr "https://idp.example/authorize");
                ("token_endpoint", PStr "https://idp.example/token");
                ("userinfo_endpoint", PStr "https://idp.example/userinfo") ]
              (PStr "https://idp.example/token") anonymous eq_refl eq_refl)
    as (Hlog & _ & Herr & _).
  split; [|exact Hlog].
  apply (Herr (Response 400 "Bad Request" ""
                 (inl (PDict [("error", PStr "invalid_grant")]))) eq_refl).
  simpl. lia.
Defined.

(** X4.  With a userinfo endpoint configured, [get_userinfo] makes exactly
    one request: a GET of that endpoint whose only header is
    [Authorization: Bearer <token>]; no client credential is sent.  It
    leaves the session alone, raises "Failed to get user info: ..." on a
    transport failure or a 4xx/5xx answer (a 401 is not retried), and
    returns the parsed body otherwise. *)
Theorem userinfo_gets_with_bearer_once (E : env) (self : Client.client) (token : string)
    d (endpoint : pyval) (w : world) :
  Client.config self = PDict d ->
  dict_lookup "userinfo_endpoint" d = Some endpoint ->
  let request := GET endpoint [("Authorization", "Bearer " ++ token)] in
  let answer := send E (http_log w) request in
  let result := fst (Client.get_userinfo E self (PStr token) w) in
  snd (Client.get_userinfo E self (PStr token) w)
  = World (session w) (http_log w ++ [request])
  /\ (forall msg, answer = Failed msg ->
        result = Raise (Exception ("Failed to get user info: " ++ msg)))
  /\ (forall r, answer = Responded r -> 400 <= status_code r < 600 ->
        exists msg, result = Raise (Exception ("Failed to get user info: " ++ msg)))
  /\ (forall r user_info, answer = Responded r -> ~ (400 <= status_code r < 600) ->
        body_json r = inl user_info -> result = Ok user_info).
Proof.
  intros Hc Hl request answer result. subst result answer.
  rewrite (userinfo_block E self token d endpoint w Hc Hl).
  destruct (guarded_request_spec E (userinfo_request endpoint token)
              "Failed to get user info: " w) as (H1 & H2 & H3 & H4 & _).
  repeat split; assumption.
Qed.

Lemma userinfo_gets_with_bearer_once_witness :
  (exists msg,
     fst (Client.get_userinfo idp_rejects_token demo_client (PStr "tok1") anonymous)
     = Raise (Exception ("Failed to get user info: " ++ msg)))
  /\ snd (Client.get_userinfo idp_rejects_token demo_client (PStr "tok1") anonymous)
     = World ∅ [ GET (PStr "https://idp.example/userinfo")
                   [("Authorization", "Bearer tok1")] ].
Proof.
  destruct (userinfo_gets_with_bearer_once idp_rejects_token demo_client "tok1"
              [ ("issuer", PStr "https://idp.example");
                ("authorization_endpoint", PStr "https://idp.example/authorize");
                ("token_endpoint", PStr "https://idp.example/token");
                ("userinfo_endpoint", PStr "https://idp.example/userinfo") ]
              (PStr "https://idp.example/userinfo") anonymous eq_refl eq_refl)
    as (Hlog & _ & Herr & _).
  split; [|exact Hlog].
  apply (Herr (Response 401 "Unauthorized" "" (inl PNone)) eq_refl).
  simpl. lia.
Defined.

(** X5.  An answer that passes the status check but whose body is not JSON
    fails discovery, the exchange and the userinfo fetch alike.  Whether the
    failure is the package's own "Failed to ..." exception depends on the
    installed requests: from 2.27 on the decoding error is a
    [RequestException] and is wrapped; before, the decoder's [ValueError]
    escapes the [except requests.RequestException] clause unwrapped. *)
Theorem body_that_is_not_json (E : env) (self : Client.client) (w : world)
    (r : response) (msg : string) :
  ~ (400 <= status_code r < 600) ->
  body_json r = inr msg ->
  (send E (http_log w) (GET (PStr (Client.discovery_url self)) []) = Responded r ->
   fst (Client._fetch_config E self w)
   = Raise (json_failure E "Failed to fetch OIDC configuration: " msg))
  /\ (forall code d endpoint,
        Client.config self = PDict d ->
        dict_lookup "token_endpoint" d = Some endpoint ->
        send E (http_log w) (token_request self endpoint code) = Responded r ->
        fst (Client.exchange_code_for_tokens E self code w)
        = Raise (json_failure E "Failed to exchange code for tokens: " msg))
  /\ (forall token d endpoint,
        Client.config self = PDict d ->
        dict_lookup "userinfo_endpoint" d = Some endpoint ->
        send E (http_log w) (userinfo_request endpoint token) = Responded r ->
        fst (Client.get_userinfo E self (PStr token) w)
        = Raise (json_failure E "Failed to get user info: " msg)).
Proof.
  intros Hst Hb. unfold json_failure. split; [|split].
  - intros Hsend. rewrite fetch_config_block.
    destruct (guarded_request_spec E (GET (PStr (Client.discovery_url self)) [])
                "Failed to fetch OIDC configuration: " w) as (_ & _ & _ & _ & Hbad).
    specialize (Hbad r msg Hsend Hst Hb). simpl in Hbad.
    destruct (guarded_request E (GET (PStr (Client.discovery_url self)) [])
                "Failed to fetch OIDC configuration: " w) as [res w'].
    simpl in *. subst res. reflexivity.
  - intros code d endpoint Hc Hl Hsend.
    rewrite (exchange_block E self code d endpoint w Hc Hl).
    destruct (guarded_request_spec E (token_request self endpoint code)
                "Failed to exchange code for tokens: " w) as (_ & _ & _ & _ & Hbad).
    exact (Hbad r msg Hsend Hst Hb).
  - intros token d endpoint Hc Hl Hsend.
    rewrite (userinfo_block E self token d endpoint w Hc Hl).
    destruct (guarded_request_spec E (userinfo_request endpoint token)
                "Failed to get user info: " w) as (_ & _ & _ & _ & Hbad).
    exact (Hbad r msg Hsend Hst Hb).
Qed.

Lemma body_that_is_not_json_witness :
  fst (Client._fetch_config (idp_html false) fresh_client anonymous)
  = Raise (JSONDecodeError "Expecting value: line 1 column 1 (char 0)")
  /\ fst (Client._fetch_config (idp_html true) fresh_client anonymous)
     = Raise (Exception
         "Failed to fetch OIDC configuration: Expecting value: line 1 column 1 (char 0)").
Proof.
  split.
  - destruct (body_that_is_not_json (idp_html false) fresh_client anonymous
                (Response 200 "OK" "" (inr "Expecting value: line 1 column 1 (char 0)"))
                "Expecting value: line 1 column 1 (char 0)") as (Hfetch & _);
      [simpl; lia|reflexivity|].
    apply Hfetch. reflexivity.
  - destruct (body_that_is_not_json (idp_html true) fresh_client anonymous
                (Response 200 "OK" "" (inr "Expecting value: line 1 column 1 (char 0)"))
                "Expecting value: line 1 column 1 (char 0)") as (Hfetch & _);
      [simpl; lia|reflexivity|].
    apply Hfetch. reflexivity.
Defined.

(** ** Starting a flow: login, register, edit_profile *)

Section BeginFlow.

Lemma get_auth_url_plain (E : env) (c : Client.client) (path issuer : string) d :
  Client.config c = PDict d ->
  dict_lookup "issuer" d = Some (PStr issuer) ->
  Client.get_auth_url E c None None path = Ok (authorization_url c issuer path).
Proof.
  intros Hc Hi.
  rewrite (get_auth_url_value E c None None path issuer d Hc Hi). reflexivity.
Qed.

(** Each starter stores the target and then asks the client for the URL of
    its path. *)
Lemma flask_begin_unfold (E : env) (p : purpose) (self : Flask.integration)
    (return_to : string) (w : world) :
  flask_begin E p self return_to w
  = (rbind (Client.get_auth_url E (Flask.client self) None None (purpose_path p))
       (fun u => Ok (Flask.Redirect (PStr u) 302)),
     returning_to return_to w).
Proof.
  destruct p; unfold flask_begin, Flask.login, Flask.register, Flask.edit_profile,
    Client.get_login_url, Client.get_register_url, Client.get_profile_url,
    bind, session_set, lift, ret, returning_to; simpl;
    destruct (Client.get_auth_url _ _ _ _ _); reflexivity.
Qed.

Lemma fastapi_begin_unfold (E : env) (p : purpose) (self : FastAPI.integration)
    (return_to : string) (w : world) :
  fastapi_begin E p self return_to w
  = (rbind (Client.get_auth_url E (FastAPI.client self) None None (purpose_path p))
       (fun u => Ok (FastAPI.RedirectResponse (PStr u) 307)),
     returning_to return_to w).
Proof.
  destruct p; unfold fastapi_begin, FastAPI.login, FastAPI.register, FastAPI.edit_profile,
    Client.get_login_url, Client.get_register_url, Client.get_profile_url,
    bind, session_set, lift, ret, returning_to; simpl;
    destruct (Client.get_auth_url _ _ _ _ _); reflexivity.
Qed.

End BeginFlow.

(** X6.  With an issuer configured, [login], [register] and [edit_profile]
    (Flask and FastAPI) store the target in the return-to slot, replacing
    whatever was pending, change nothing else, make no HTTP request, and
    redirect (302 in Flask, 307 in FastAPI) to the issuer followed by
    [/authorize], [/register] or [/personal-details] and the same four
    parameters. *)
Theorem begin_flow_redirects_to_issuer_path (E : env) (c : Client.client) (key : string)
    (p : purpose) (return_to issuer : string) d (w : world) :
  Client.config c = PDict d ->
  dict_lookup "issuer" d = Some (PStr issuer) ->
  let url := (issuer ++ purpose_path p) ++ "?"
             ++ Urllib.urlencode [ ("client_id", Client.client_id c);
                                   ("redirect_uri", Client.redirect_uri c);
                                   ("response_type", "code");
                                   ("scope", Client.scope c) ] in
  let w' := World (<["return_to" := PStr return_to]> (session w)) (http_log w) in
  flask_begin E p (Flask.NextIdentityFlask c key) return_to w
  = (Ok (Flask.Redirect (PStr url) 302), w')
  /\ fastapi_begin E p (FastAPI.NextIdentityFastAPI c key) return_to w
     = (Ok (FastAPI.RedirectResponse (PStr url) 307), w').
Proof.
  intros Hc Hi url w'.
  rewrite flask_begin_unfold, fastapi_begin_unfold. simpl Flask.client. simpl FastAPI.client.
  rewrite (get_auth_url_plain E c (purpose_path p) issuer d Hc Hi). split; reflexivity.
Qed.

Lemma begin_flow_redirects_to_issuer_path_witness :
  flask_begin idp Register (Flask.NextIdentityFlask demo_client auth_key)
    "/welcome" pending_login
  = (Ok (Flask.Redirect
           (PStr "https://idp.example/register?client_id=abc&redirect_uri=https%3A%2F%2Fapp%2Fcallback&response_type=code&scope=openid+profile+email")
           302),
     World {[ "return_to" := PStr "/welcome" ]} []).
Proof.
  destruct (begin_flow_redirects_to_issuer_path idp demo_client auth_key Register
              "/welcome" "https://idp.example"
              [ ("issuer", PStr "https://idp.example");
                ("authorization_endpoint", PStr "https://idp.example/authorize");
                ("token_endpoint", PStr "https://idp.example/token");
                ("userinfo_endpoint", PStr "https://idp.example/userinfo") ]
              pending_login eq_refl eq_refl) as [Hflask _].
  rewrite Hflask. reflexivity.
Defined.

(** X7.  The URLs the integrations redirect to carry exactly the four
    parameters [client_id], [redirect_uri], [response_type], [scope]: the
    integrations never send a [state] or a [nonce], and the client secret
    never appears in a redirect. *)
Theorem begin_flow_sends_no_state_nonce_or_secret (E : env) (c : Client.client)
    (key : string) (p : purpose) (return_to issuer : string) d (w : world) :
  Client.config c = PDict d ->
  dict_lookup "issuer" d = Some (PStr issuer) ->
  mem_char "?" issuer = false ->
  mem_char "#" issuer = false ->
  exists url,
    fst (flask_begin E p (Flask.NextIdentityFlask c key) return_to w)
    = Ok (Flask.Redirect (PStr url) 302)
    /\ fst (fastapi_begin E p (FastAPI.NextIdentityFastAPI c key) return_to w)
       = Ok (FastAPI.RedirectResponse (PStr url) 307)
    /\ (let query := Urllib.parse_qsl true (Urllib.url_query url) in
        query = [ ("client_id", Client.client_id c);
                  ("redirect_uri", Client.redirect_uri c);
                  ("response_type", "code");
                  ("scope", Client.scope c) ]
        /\ ~ has_param "state" query
        /\ ~ has_param "nonce" query
        /\ ~ has_param "client_secret" query).
Proof.
  intros Hc Hi Hq Hf. exists (authorization_url c issuer (purpose_path p)).
  rewrite flask_begin_unfold, fastapi_begin_unfold. simpl Flask.client. simpl FastAPI.client.
  rewrite (get_auth_url_plain E c (purpose_path p) issuer d Hc Hi).
  split; [reflexivity|]. split; [reflexivity|].
  unfold authorization_url.
  rewrite url_query_urlencode, parse_qsl_urlencode.
  - cbv zeta. split; [reflexivity|].
    repeat split; apply has_param_fixed; discriminate.
  - rewrite mem_char_app, Hq. destruct p; reflexivity.
  - rewrite mem_char_app, Hf. destruct p; reflexivity.
Qed.

Lemma begin_flow_sends_no_state_nonce_or_secret_witness :
  exists url,
    fst (flask_begin idp Login (Flask.NextIdentityFlask demo_client auth_key) "/" anonymous)
    = Ok (Flask.Redirect (PStr url) 302)
    /\ fst (fastapi_begin idp Login (FastAPI.NextIdentityFastAPI demo_client auth_key) "/"
              anonymous)
       = Ok (FastAPI.RedirectResponse (PStr url) 307)
    /\ (let query := Urllib.parse_qsl true (Urllib.url_query url) in
        query = [ ("client_id", "abc");
                  ("redirect_uri", "https://app/callback");
                  ("response_type", "code");
                  ("scope", "openid profile email") ]
        /\ ~ has_param "state" query
        /\ ~ has_param "nonce" query
        /\ ~ has_param "client_secret" query).
Proof.
  apply (begin_flow_sends_no_state_nonce_or_secret idp demo_client auth_key Login "/"
           "https://idp.example"
           [ ("issuer", PStr "https://idp.example");
             ("authorization_endpoint", PStr "https://idp.example/authorize");
             ("token_endpoint", PStr "https://idp.example/token");
             ("userinfo_endpoint", PStr "https://idp.example/userinfo") ]
           anonymous); reflexivity.
Defined.

(** X8.  The starters write the return-to slot before they build the URL:
    when the URL cannot be built (configuration not loaded, no issuer), the
    exception is raised with the pending target already replaced. *)
Theorem failed_begin_flow_still_overwrites_return_to (E : env) (c : Client.client)
    (key : string) (p : purpose) (return_to : string) (e : exn) (w : world) :
  Client.get_auth_url E c None None (purpose_path p) = Raise e ->
  flask_begin E p (Flask.NextIdentityFlask c key) return_to w
  = (Raise e, World (<["return_to" := PStr return_to]> (session w)) (http_log w))
  /\ fastapi_begin E p (FastAPI.NextIdentityFastAPI c key) return_to w
     = (Raise e, World (<["return_to" := PStr return_to]> (session w)) (http_log w)).
Proof.
  intros He. rewrite flask_begin_unfold, fastapi_begin_unfold.
  simpl Flask.client. simpl FastAPI.client. rewrite He. split; reflexivity.
Qed.

Lemma failed_begin_flow_still_overwrites_return_to_witness :
  flask_begin idp Login (Flask.NextIdentityFlask fresh_client auth_key) "/account"
    pending_login
  = (Raise not_loaded, World {[ "return_to" := PStr "/account" ]} []).
Proof.
  destruct (failed_begin_flow_still_overwrites_return_to idp fresh_client auth_key Login
              "/account" not_loaded pending_login eq_refl) as [Hflask _].
  rewrite Hflask. reflexivity.
Defined.

Import Sample3.

(** ** Stored claims *)

Section UserInfo.

Lemma flask_fastapi_get_user_info (c c' : Client.client) (key : string) (w : world) :
  FastAPI.get_user_info (FastAPI.NextIdentityFastAPI c' key) w
  = Flask.get_user_info (Flask.NextIdentityFlask c key) w.
Proof. reflexivity. Qed.

Lemma flask_get_user_info_absent (self : Flask.integration) (w : world) :
  session w !! Flask.session_auth_key self = None ->
  Flask.get_user_info self w = (Ok PNone, w).
Proof.
  intros Hs. unfold Flask.get_user_info, bind, session_get. rewrite Hs. reflexivity.
Qed.

Lemma flask_get_user_info_record (self : Flask.integration) (w : world) d :
  session w !! Flask.session_auth_key self = Some (PDict d) ->
  Flask.get_user_info self w
  = (Ok (match dict_lookup "user_info" d with Some x => x | None => PNone end), w).
Proof.
  intros Hs. unfold Flask.get_user_info, bind, session_get, lift, ret. rewrite Hs.
  destruct d as [|kv d']; [reflexivity|].
  cbn [truthy contains]. unfold dict_has, getitem.
  destruct (dict_lookup "user_info" (kv :: d')); reflexivity.
Qed.

End UserInfo.

(** X9.  The claims a callback received from the userinfo endpoint are what
    [get_user_info] returns afterwards, unchanged and without touching the
    session; after [logout] it returns [None], whatever [logout] answered. *)
Theorem user_info_is_stored_by_callback_and_dropped_by_logout
    (E : env) (c : Client.client) (key : string) (w : world) :
  let flask := Flask.NextIdentityFlask c key in
  let fastapi := FastAPI.NextIdentityFastAPI c key in
  (forall code tokens access_token user_info w2,
      code <> "" -> key <> "return_to" ->
      callback_success E c code w tokens access_token user_info w2 ->
      (let w' := snd (Flask.auth_callback E flask (Some code) w) in
       Flask.get_user_info flask w' = (Ok user_info, w'))
      /\ (let w' := snd (FastAPI.auth_callback E fastapi (Some code) w) in
          FastAPI.get_user_info fastapi w' = (Ok user_info, w')))
  /\ (forall return_to,
        (let w' := snd (Flask.logout E flask return_to w) in
         Flask.get_user_info flask w' = (Ok PNone, w'))
        /\ (let w' := snd (FastAPI.logout E fastapi return_to w) in
            FastAPI.get_user_info fastapi w' = (Ok PNone, w'))).
Proof.
  intros flask fastapi. split.
  - intros code tokens tok ui w2 Hne Hkey Hs.
    rewrite (flask_callback_success E flask code w tokens tok ui w2 Hne Hs).
    rewrite (fastapi_callback_success E fastapi code w tokens tok ui w2 Hne Hs).
    cbv zeta. simpl snd.
    unfold fastapi. rewrite (flask_fastapi_get_user_info c c key). fold flask.
    assert (H : forall w0 : world,
               Flask.get_user_info flask
                 (with_session (delete "return_to"
                    (<[key := auth_record tokens tok ui]> (session w))) w0)
               = (Ok ui, with_session (delete "return_to"
                    (<[key := auth_record tokens tok ui]> (session w))) w0)).
    { intros w0.
      rewrite (flask_get_user_info_record flask _
                 [ ("access_token", tok);
                   ("id_token", match dict_lookup "id_token" tokens with
                                | Some x => x | None => PNone end);
                   ("refresh_token", match dict_lookup "refresh_token" tokens with
                                     | Some x => x | None => PNone end);
                   ("expires_in", match dict_lookup "expires_in" tokens with
                                  | Some x => x | None => PNone end);
                   ("user_info", ui) ]); [reflexivity|].
      simpl. rewrite lookup_delete_ne by congruence. apply lookup_insert_eq. }
    split; apply H.
  - intros rt. cbv zeta.
    rewrite flask_logout_world, fastapi_logout_world.
    unfold fastapi. rewrite (flask_fastapi_get_user_info c c key). fold flask.
    split; apply flask_get_user_info_absent; simpl; apply lookup_delete_eq.
Qed.

Lemma user_info_is_stored_by_callback_and_dropped_by_logout_witness :
  let flask := Flask.NextIdentityFlask demo_client auth_key in
  let w' := snd (Flask.auth_callback idp flask (Some "xyz") pending_login) in
  Flask.get_user_info flask w' = (Ok claims, w').
Proof.
  destruct (user_info_is_stored_by_callback_and_dropped_by_logout idp demo_client
              auth_key pending_login) as [Hcallback _].
  destruct (Hcallback "xyz" [("access_token", PStr "tok1"); ("id_token", PStr "a.b.c")]
              (PStr "tok1") claims
              (snd (Client.get_userinfo idp demo_client (PStr "tok1")
                      (snd (Client.exchange_code_for_tokens idp demo_client "xyz"
                              pending_login)))))
    as [Hflask _].
  - discriminate.
  - discriminate.
  - exists (snd (Client.exchange_code_for_tokens idp demo_client "xyz" pending_login)).
    repeat split; vm_compute; reflexivity.
  - exact Hflask.
Defined.

(** X10.  [get_user_info] does not look at the access token: on a record
    that holds [user_info] but no [access_token], the session reads as
    anonymous and the claims are returned all the same. *)
Theorem user_info_is_readable_without_access_token
    (c : Client.client) (key : string) (w : world) d (user_info : pyval) :
  session w !! key = Some (PDict d) ->
  dict_lookup "user_info" d = Some user_info ->
  dict_lookup "access_token" d = None ->
  Flask.is_authenticated (Flask.NextIdentityFlask c key) w = (Ok false, w)
  /\ Flask.get_user_info (Flask.NextIdentityFlask c key) w = (Ok user_info, w)
  /\ FastAPI.is_authenticated (FastAPI.NextIdentityFastAPI c key) w = (Ok false, w)
  /\ FastAPI.get_user_info (FastAPI.NextIdentityFastAPI c key) w = (Ok user_info, w).
Proof.
  intros Hs Hu Ha.
  rewrite (flask_fastapi_is_authenticated c c key), (flask_fastapi_get_user_info c c key).
  assert (H1 : Flask.is_authenticated (Flask.NextIdentityFlask c key) w = (Ok false, w)).
  { rewrite (flask_is_authenticated_present (Flask.NextIdentityFlask c key) w _ Hs).
    simpl. unfold dict_has. by rewrite Ha. }
  assert (H2 : Flask.get_user_info (Flask.NextIdentityFlask c key) w = (Ok user_info, w)).
  { rewrite (flask_get_user_info_record (Flask.NextIdentityFlask c key) w d Hs).
    by rewrite Hu. }
  auto.
Qed.

Lemma user_info_is_readable_without_access_token_witness :
  Flask.is_authenticated (Flask.NextIdentityFlask demo_client auth_key)
    session_without_token = (Ok false, session_without_token)
  /\ Flask.get_user_info (Flask.NextIdentityFlask demo_client auth_key)
       session_without_token
     = (Ok (PDict [("sub", PStr "u1")]), session_without_token).
Proof.
  destruct (user_info_is_readable_without_access_token demo_client auth_key
              session_without_token [("user_info", PDict [("sub", PStr "u1")])]
              (PDict [("sub", PStr "u1")])) as (H1 & H2 & _); try reflexivity.
  split; assumption.
Defined.

Import Blocks2.

(** ** Logout with a session record *)

Lemma get_logout_url_hint (E : env) (c : Client.client) d (endpoint id_token target : string) :
  Client.config c = PDict d ->
  dict_lookup "end_session_endpoint" d = Some (PStr endpoint) ->
  id_token <> "" ->
  Client.get_logout_url E c (PStr id_token) (PStr target)
  = Ok (PStr (endpoint ++ "?" ++ Urllib.urlencode (logout_params id_token target))).
Proof.
  intros Hc Hl Hne. unfold Client.get_logout_url, logout_params. rewrite Hc.
  destruct d as [|kv d']; [discriminate|].
  cbn [truthy negb contains]. unfold dict_has, getitem. rewrite Hl.
  apply String.eqb_neq in Hne. rewrite Hne.
  cbn [negb rbind]. destruct (String.eqb target ""); reflexivity.
Qed.

(** X11.  When the session record holds a non-empty string [id_token] (as
    stored by the callback from the token response) and the end-session
    endpoint is configured, [logout] removes the record and redirects to
    the endpoint with [id_token_hint] first and the post-logout target
    second; parsing the query gives both values back. *)
Theorem logout_sends_stored_id_token_as_hint (E : env) (c : Client.client) (key : string)
    (w : world) record (id_token return_to endpoint : string) d :
  session w !! key = Some (PDict record) ->
  dict_lookup "id_token" record = Some (PStr id_token) ->
  id_token <> "" ->
  Client.config c = PDict d ->
  dict_lookup "end_session_endpoint" d = Some (PStr endpoint) ->
  let url target :=
    endpoint ++ "?" ++ Urllib.urlencode (logout_params id_token target) in
  let w' := World (delete key (session w)) (http_log w) in
  FastAPI.logout E (FastAPI.NextIdentityFastAPI c key) return_to w
  = (Ok (FastAPI.RedirectResponse (PStr (url return_to)) 307), w')
  /\ (forall target,
        (if String.eqb return_to "/" then url_for E "index" true else Ok return_to)
        = Ok target ->
        Flask.logout E (Flask.NextIdentityFlask c key) return_to w
        = (Ok (Flask.Redirect (PStr (url target)) 302), w'))
  /\ (mem_char "?" endpoint = false -> mem_char "#" endpoint = false ->
      forall target,
        Urllib.parse_qsl true (Urllib.url_query (url target))
        = logout_params id_token target).
Proof.
  intros Hs Hi Hne Hc Hl url w'.
  assert (Hrec : truthy (PDict record) = true) by (destruct record; [discriminate|reflexivity]).
  split; [|split].
  - unfold FastAPI.logout, bind, session_pop, lift, ret. simpl FastAPI.session_auth_key.
    rewrite Hs, Hrec. cbn [get_method]. rewrite Hi. simpl FastAPI.client.
    by rewrite (get_logout_url_hint E c d endpoint id_token return_to Hc Hl Hne).
  - intros target Ht.
    unfold Flask.logout, bind, session_pop, lift, ret. simpl Flask.session_auth_key.
    rewrite Hs, Hrec. cbn [get_method]. rewrite Hi, Ht. simpl Flask.client.
    by rewrite (get_logout_url_hint E c d endpoint id_token target Hc Hl Hne).
  - intros Hq Hf target. unfold url.
    rewrite url_query_urlencode by assumption. apply parse_qsl_urlencode.
Qed.

Lemma logout_sends_stored_id_token_as_hint_witness :
  FastAPI.logout idp (FastAPI.NextIdentityFastAPI logout_client auth_key) "/bye" signed_in
  = (Ok (FastAPI.RedirectResponse
           (PStr "https://idp.example/logout?id_token_hint=a.b.c&post_logout_redirect_uri=%2Fbye")
           307),
     anonymous).
Proof.
  destruct (logout_sends_stored_id_token_as_hint idp logout_client auth_key signed_in
              [ ("access_token", PStr "tok1"); ("id_token", PStr "a.b.c");
                ("refresh_token", PNone); ("expires_in", PNone); ("user_info", claims) ]
              "a.b.c" "/bye" "https://idp.example/logout"
              [ ("issuer", PStr "https://idp.example");
                ("token_endpoint", PStr "https://idp.example/token");
                ("userinfo_endpoint", PStr "https://idp.example/userinfo");
                ("end_session_endpoint", PStr "https://idp.example/logout") ])
    as [Hfastapi _];
    [reflexivity|reflexivity|discriminate|reflexivity|reflexivity|].
  rewrite Hfastapi. reflexivity.
Defined.

(** X12.  [logout] touches one thing only: it deletes the auth key.  Every
    other session key (the pending return-to target included) keeps its
    value, no HTTP request is made (the provider is only reached through
    the redirect), and a second [logout] leaves the session as the first
    one left it.  This holds whatever [logout] answers or raises. *)
Theorem logout_only_deletes_the_record (E : env) (c : Client.client) (key : string)
    (return_to : string) (w : world) :
  let flask := Flask.NextIdentityFlask c key in
  let fastapi := FastAPI.NextIdentityFastAPI c key in
  let w' := World (delete key (session w)) (http_log w) in
  snd (Flask.logout E flask return_to w) = w'
  /\ snd (FastAPI.logout E fastapi return_to w) = w'
  /\ (forall k, k <> key -> session w' !! k = session w !! k)
  /\ (forall again,
        snd (Flask.logout E flask again w') = w'
        /\ snd (FastAPI.logout E fastapi again w') = w').
Proof.
  intros flask fastapi w'. split; [|split; [|split]].
  - apply flask_logout_world.
  - apply fastapi_logout_world.
  - intros k Hk. simpl. by apply lookup_delete_ne.
  - intros again. rewrite flask_logout_world, fastapi_logout_world.
    unfold with_session, w'. simpl.
    rewrite delete_id by apply lookup_delete_eq. split; reflexivity.
Qed.

Lemma logout_only_deletes_the_record_witness :
  let w' := snd (Flask.logout idp (Flask.NextIdentityFlask demo_client auth_key) "/home"
                   busy_session) in
  session w' !! "cart" = Some (PList [PStr "book"])
  /\ session w' !! "return_to" = Some (PStr "/orders")
  /\ session w' !! auth_key = None
  /\ http_log w' = [].
Proof.
  destruct (logout_only_deletes_the_record idp demo_client auth_key "/home" busy_session)
    as (Hflask & _ & Hframe & _).
  cbv zeta. rewrite Hflask. split; [|split; [|split]].
  - rewrite (Hframe "cart") by discriminate. reflexivity.
  - rewrite (Hframe "return_to") by discriminate. reflexivity.
  - simpl. apply lookup_delete_eq.
  - reflexivity.
Defined.

(** ** The requests of a callback *)

Section CallbackRequests.

Lemma userinfo_block_any (E : env) (self : Client.client) (token : pyval) d endpoint
    (w : world) :
  Client.config self = PDict d ->
  dict_lookup "userinfo_endpoint" d = Some endpoint ->
  Client.get_userinfo E self token w
  = guarded_request E (userinfo_request endpoint (format_value E token))
      "Failed to get user info: " w.
Proof.
  intros Hc Hl. unfold Client.get_userinfo. rewrite Hc.
  destruct d as [|kv d']; [discriminate|].
  simpl negb. cbv iota. unfold bind at 1, lift at 1, getitem. rewrite Hl. reflexivity.
Qed.

Lemma guarded_request_log (E : env) (req : request) (prefix : string) (w : world) :
  http_log (snd (guarded_request E req prefix w)) = (http_log w ++ [req])%list.
Proof.
  destruct (guarded_request_spec E req prefix w) as [H _]. by rewrite H.
Qed.

(** The log a callback leaves, from the outcome of its exchange. *)
Lemma callback_log (E : env) (c : Client.client) (code : string) d token_endpoint
    userinfo_endpoint (w : world) (e : exn) (w' : world) :
  Client.config c = PDict d ->
  dict_lookup "token_endpoint" d = Some token_endpoint ->
  dict_lookup "userinfo_endpoint" d = Some userinfo_endpoint ->
  callback_failure E c code w e w' ->
  http_log w'
  = (http_log w ++ token_request c token_endpoint code
       :: userinfo_requests E userinfo_endpoint
            (fst (Client.exchange_code_for_tokens E c code w)))%list.
Proof.
  intros Hc Ht Hu Hf.
  pose proof (exchange_block E c code d token_endpoint w Hc Ht) as Hx.
  pose proof (guarded_request_log E (token_request c token_endpoint code)
                "Failed to exchange code for tokens: " w) as Hlog.
  rewrite <- Hx in Hlog.
  destruct Hf as [e0 w1 H | tokens e0 w1 H Hg | tokens tok e0 w1 w2 H Hg H2];
    rewrite H in Hlog |- *; simpl in Hlog |- *.
  - exact Hlog.
  - rewrite Hg. exact Hlog.
  - rewrite Hg.
    rewrite (userinfo_block_any E c tok d userinfo_endpoint w1 Hc Hu) in H2.
    pose proof (guarded_request_log E
                  (userinfo_request userinfo_endpoint (format_value E tok))
                  "Failed to get user info: " w1) as Hlog2.
    rewrite H2 in Hlog2. simpl in Hlog2. rewrite Hlog2, Hlog.
    rewrite <- app_assoc. reflexivity.
Qed.

Lemma callback_success_log (E : env) (c : Client.client) (code : string) d token_endpoint
    userinfo_endpoint (w : world) tokens access_token user_info (w2 : world) :
  Client.config c = PDict d ->
  dict_lookup "token_endpoint" d = Some token_endpoint ->
  dict_lookup "userinfo_endpoint" d = Some userinfo_endpoint ->
  callback_success E c code w tokens access_token user_info w2 ->
  http_log w2
  = (http_log w ++ token_request c token_endpoint code
       :: userinfo_requests E userinfo_endpoint
            (fst (Client.exchange_code_for_tokens E c code w)))%list.
Proof.
  intros Hc Ht Hu (w1 & H & Hg & H2).
  pose proof (exchange_block E c code d token_endpoint w Hc Ht) as Hx.
  pose proof (guarded_request_log E (token_request c token_endpoint code)
                "Failed to exchange code for tokens: " w) as Hlog.
  rewrite <- Hx, H in Hlog. rewrite H. simpl in Hlog |- *. rewrite Hg.
  rewrite (userinfo_block_any E c access_token d userinfo_endpoint w1 Hc Hu) in H2.
  pose proof (guarded_request_log E
                (userinfo_request userinfo_endpoint (format_value E access_token))
                "Failed to get user info: " w1) as Hlog2.
  rewrite H2 in Hlog2. simpl in Hlog2. rewrite Hlog2, Hlog.
  rewrite <- app_assoc. reflexivity.
Qed.

End CallbackRequests.

(** X13.  With both endpoints configured and a code in hand, a callback
    makes the token POST first and always; it makes the userinfo GET, with
    the received access token as bearer, only when the exchange returned
    something with an [access_token] to read; it makes no other request.
    Without a code (absent or empty) it makes no request and writes
    nothing. *)
Theorem callback_requests_token_then_userinfo (E : env) (c : Client.client) (key : string)
    (code : string) d (token_endpoint userinfo_endpoint : pyval) (w : world) :
  Client.config c = PDict d ->
  dict_lookup "token_endpoint" d = Some token_endpoint ->
  dict_lookup "userinfo_endpoint" d = Some userinfo_endpoint ->
  code <> "" ->
  let flask := Flask.NextIdentityFlask c key in
  let fastapi := FastAPI.NextIdentityFastAPI c key in
  let post :=
    POST token_endpoint [ ("grant_type", "authorization_code"); ("code", code);
                          ("redirect_uri", Client.redirect_uri c);
                          ("client_id", Client.client_id c);
                          ("client_secret", Client.client_secret c) ] in
  let get :=
    match fst (Client.exchange_code_for_tokens E c code w) with
    | Ok tokens =>
        match getitem tokens "access_token" with
        | Ok token =>
            [GET userinfo_endpoint [("Authorization", "Bearer " ++ format_value E token)]]
        | Raise _ => []
        end
    | Raise _ => []
    end in
  http_log (snd (Flask.auth_callback E flask (Some code) w))
  = (http_log w ++ post :: get)%list
  /\ http_log (snd (FastAPI.auth_callback E fastapi (Some code) w))
     = (http_log w ++ post :: get)%list
  /\ (forall missing, truthy_opt missing = false ->
        snd (Flask.auth_callback E flask missing w) = w
        /\ snd (FastAPI.auth_callback E fastapi missing w) = w).
Proof.
  intros Hc Ht Hu Hne flask fastapi post get.
  change post with (token_request c token_endpoint code).
  change get with (userinfo_requests E userinfo_endpoint
                     (fst (Client.exchange_code_for_tokens E c code w))).
  split; [|split].
  - destruct (callback_cases E c code w)
      as [(e & w' & Hf) | (tokens & tok & ui & w2 & Hs)].
    + rewrite (flask_callback_failure E flask code w e w' Hne Hf). simpl snd.
      by apply (callback_log E c code d token_endpoint userinfo_endpoint w e w').
    + rewrite (flask_callback_success E flask code w tokens tok ui w2 Hne Hs). simpl.
      by apply (callback_success_log E c code d token_endpoint userinfo_endpoint w
                  tokens tok ui w2).
  - destruct (callback_cases E c code w)
      as [(e & w' & Hf) | (tokens & tok & ui & w2 & Hs)].
    + rewrite (fastapi_callback_failure E fastapi code w e w' Hne Hf). simpl snd.
      by apply (callback_log E c code d token_endpoint userinfo_endpoint w e w').
    + rewrite (fastapi_callback_success E fastapi code w tokens tok ui w2 Hne Hs). simpl.
      by apply (callback_success_log E c code d token_endpoint userinfo_endpoint w
                  tokens tok ui w2).
  - intros missing Hm.
    rewrite (flask_callback_without_code E flask missing w Hm).
    rewrite (fastapi_callback_without_code E fastapi missing w Hm). split; reflexivity.
Qed.

Lemma callback_requests_token_then_userinfo_witness :
  http_log (snd (Flask.auth_callback idp_rejects_code
                   (Flask.NextIdentityFlask demo_client auth_key) (Some "xyz")
                   pending_login))
  = [ POST (PStr "https://idp.example/token")
        [ ("grant_type", "authorization_code"); ("code", "xyz");
          ("redirect_uri", "https://app/callback"); ("client_id", "abc");
          ("client_secret", "s3cret") ] ].
Proof.
  destruct (callback_requests_token_then_userinfo idp_rejects_code demo_client auth_key
              "xyz"
              [ ("issuer", PStr "https://idp.example");
                ("authorization_endpoint", PStr "https://idp.example/authorize");
                ("token_endpoint", PStr "https://idp.example/token");
                ("userinfo_endpoint", PStr "https://idp.example/userinfo") ]
              (PStr "https://idp.example/token") (PStr "https://idp.example/userinfo")
              pending_login) as [Hflask _];
    [reflexivity|reflexivity|reflexivity|discriminate|].
  rewrite Hflask. reflexivity.
Defined.

(** ** The Flask guard *)

(** X14.  The Flask [login_required] decorator.  On an authenticated
    session the wrapped view runs as if undecorated.  On an anonymous one
    the view is not run: the request URL replaces the return-to target and
    the answer is a 302 to the host's [login] view; when the host has no
    such view, the [BuildError] of [url_for] is raised with the target
    already stored.  When reading the session raises, so does the
    decorated view, with nothing written. *)
Theorem flask_login_required_decorator (E : env) (self : Flask.integration)
    (f : M Flask.response) (url : string) (w : world) :
  let w' := World (<["return_to" := PStr url]> (session w)) (http_log w) in
  (Flask.is_authenticated self w = (Ok true, w) ->
   Flask.login_required E self f url w = f w)
  /\ (Flask.is_authenticated self w = (Ok false, w) ->
      (forall login_view,
          url_for E "login" false = Ok login_view ->
          Flask.login_required E self f url w
          = (Ok (Flask.Redirect (PStr login_view) 302), w'))
      /\ (forall e,
            url_for E "login" false = Raise e ->
            Flask.login_required E self f url w = (Raise e, w')))
  /\ (forall e,
        Flask.is_authenticated self w = (Raise e, w) ->
        Flask.login_required E self f url w = (Raise e, w)).
Proof.
  intros w'. split; [|split].
  - by apply flask_login_required_authenticated.
  - intros Ha. split.
    + intros login_view Hu.
      by apply (flask_login_required_anonymous E self f url login_view w).
    + intros e Hu. unfold Flask.login_required, bind. rewrite Ha. simpl.
      unfold lift. rewrite Hu. reflexivity.
  - intros e Ha. unfold Flask.login_required, bind. rewrite Ha. reflexivity.
Qed.

Lemma flask_login_required_decorator_witness :
  Flask.login_required idp (Flask.NextIdentityFlask demo_client auth_key)
    (ret (Flask.Text "Protected Content" 200)) "http://localhost:5000/protected"
    pending_login
  = (Ok (Flask.Redirect (PStr "/login") 302),
     World {[ "return_to" := PStr "http://localhost:5000/protected" ]} []).
Proof.
  destruct (flask_login_required_decorator idp
              (Flask.NextIdentityFlask demo_client auth_key)
              (ret (Flask.Text "Protected Content" 200))
              "http://localhost:5000/protected" pending_login) as (_ & Hanon & _).
  destruct Hanon as [Hredirect _].
  - apply flask_is_authenticated_absent. reflexivity.
  - rewrite (Hredirect "/login" eq_refl). reflexivity.
Defined.

Import Sample4.

(** ** The example Flask application *)

(** X15.  In the example Flask application the URL of the protected page
    does not survive the login.  The guard stores it and redirects to the
    host's [login] view, but that view calls [login] with the index URL as
    target, which replaces it; a callback that then completes redirects to
    the index page. *)
Theorem example_login_view_replaces_the_protected_url
    (E : env) (c : Client.client) (key : string) (render : bool -> pyval -> bool -> string)
    (url login_view index_url issuer : string) d (w : world) :
  Client.config c = PDict d ->
  dict_lookup "issuer" d = Some (PStr issuer) ->
  url_for E "login" false = Ok login_view ->
  url_for E "index" true = Ok index_url ->
  key <> "return_to" ->
  Flask.is_authenticated (Flask.NextIdentityFlask c key) w = (Ok false, w) ->
  let flask := Flask.NextIdentityFlask c key in
  let w1 := snd (FlaskApp.protected E flask render url w) in
  let w2 := snd (FlaskApp.login E flask w1) in
  fst (FlaskApp.protected E flask render url w)
  = Ok (Flask.Redirect (PStr login_view) 302)
  /\ session w1 !! "return_to" = Some (PStr url)
  /\ session w2 !! "return_to" = Some (PStr index_url)
  /\ (forall code tokens access_token user_info w3,
        code <> "" ->
        callback_success E c code w2 tokens access_token user_info w3 ->
        fst (Flask.auth_callback E flask (Some code) w2)
        = Ok (Flask.Redirect (PStr index_url) 302)).
Proof.
  intros Hc Hi Hlogin Hindex Hkey Hanon flask w1 w2.
  assert (Hp : FlaskApp.protected E flask render url w
               = (Ok (Flask.Redirect (PStr login_view) 302),
                  with_session (<["return_to" := PStr url]> (session w)) w)).
  { unfold FlaskApp.protected.
    by apply (flask_login_required_anonymous E flask _ url login_view w). }
  assert (Hw2 : FlaskApp.login E flask w1
                = (Ok (Flask.Redirect
                         (PStr (authorization_url c issuer "/authorize")) 302),
                   returning_to index_url w1)).
  { unfold FlaskApp.login, bind at 1, lift at 1. rewrite Hindex.
    change (Flask.login E flask index_url w1)
      with (flask_begin E Login flask index_url w1).
    rewrite (flask_begin_unfold E Login flask index_url w1). simpl Flask.client.
    simpl purpose_path.
    by rewrite (get_auth_url_plain E c "/authorize" issuer d Hc Hi). }
  subst w2. rewrite Hw2. subst w1. rewrite Hp. simpl snd. simpl fst.
  split; [reflexivity|]. split; [apply lookup_insert_eq|].
  split; [apply lookup_insert_eq|].
  intros code tokens tok ui w3 Hne Hs.
  rewrite (flask_callback_success E flask code _ tokens tok ui w3 Hne Hs). simpl fst.
  unfold pending_return_to. simpl Flask.session_auth_key.
  rewrite lookup_insert_ne by congruence.
  simpl session. rewrite lookup_insert_eq. reflexivity.
Qed.

Lemma example_login_view_replaces_the_protected_url_witness :
  let flask := Flask.NextIdentityFlask demo_client auth_key in
  let w1 := snd (FlaskApp.protected idp flask show "http://localhost:5000/protected"
                   anonymous) in
  let w2 := snd (FlaskApp.login idp flask w1) in
  session w1 !! "return_to" = Some (PStr "http://localhost:5000/protected")
  /\ session w2 !! "return_to" = Some (PStr "http://localhost:5000/index")
  /\ fst (Flask.auth_callback idp flask (Some "xyz") w2)
     = Ok (Flask.Redirect (PStr "http://localhost:5000/index") 302).
Proof.
  destruct (example_login_view_replaces_the_protected_url idp demo_client auth_key show
              "http://localhost:5000/protected" "/login" "http://localhost:5000/index"
              "https://idp.example"
              [ ("issuer", PStr "https://idp.example");
                ("authorization_endpoint", PStr "https://idp.example/authorize");
                ("token_endpoint", PStr "https://idp.example/token");
                ("userinfo_endpoint", PStr "https://idp.example/userinfo") ]
              anonymous) as (_ & H1 & H2 & H3);
    [reflexivity|reflexivity|reflexivity|reflexivity|discriminate| |].
  - apply flask_is_authenticated_absent. reflexivity.
  - cbv zeta. split; [exact H1|]. split; [exact H2|].
    set (w2 := snd (FlaskApp.login idp (Flask.NextIdentityFlask demo_client auth_key)
                      (snd (FlaskApp.protected idp
                              (Flask.NextIdentityFlask demo_client auth_key) show
                              "http://localhost:5000/protected" anonymous)))) in *.
    apply (H3 "xyz" [("access_token", PStr "tok1"); ("id_token", PStr "a.b.c")]
             (PStr "tok1") claims
             (snd (Client.get_userinfo idp demo_client (PStr "tok1")
                     (snd (Client.exchange_code_for_tokens idp demo_client "xyz" w2))))).
    + discriminate.
    + exists (snd (Client.exchange_code_for_tokens idp demo_client "xyz" w2)).
      repeat split; vm_compute; reflexivity.
Defined.

(** ** The ID token decoder: what it looks at and how it fails *)

Section Decoder.
Import Base64.

Lemma length_map_chars (f : ascii -> ascii) (s : string) :
  String.length (map_chars f s) = String.length s.
Proof. induction s as [|x s IH]; cbn [map_chars String.length]; [reflexivity|]. by rewrite IH. Qed.

Lemma translate_keeps_ascii (c : ascii) :
  (code (Client.translate_table c) <? 128) = (code c <? 128).
Proof.
  pose proof (forall_bytes
    (fun c => Bool.eqb (code (Client.translate_table c) <? 128) (code c <? 128))
    ltac:(vm_compute; reflexivity) c) as H.
  by apply Bool.eqb_prop in H.
Qed.

Lemma is_ascii_translate (s : string) :
  is_ascii (map_chars Client.translate_table s) = is_ascii s.
Proof.
  induction s as [|x s IH]; cbn [map_chars is_ascii]; [reflexivity|].
  by rewrite translate_keeps_ascii, IH.
Qed.

(** The decoder applied to a token of three segments, in terms of the
    middle one. *)
Lemma validate_id_token_three (E : env) (id_token header payload signature : string) :
  split_on "." id_token = [header; payload; signature] ->
  Client.validate_id_token E id_token
  = rcatch
      (rbind (b64decode (map_chars Client.translate_table payload
                         ++ repeat_char "=" (4 - String.length payload mod 4)))
         (json_loads E))
      (fun e => Raise (Exception ("Failed to decode ID token: " ++ str_exn e))).
Proof.
  intros Hs. unfold Client.validate_id_token. rewrite Hs.
  cbn [List.length Nat.eqb negb nth]. rewrite map_chars_app, translate_pads. reflexivity.
Qed.

End Decoder.

(** X16.  [validate_id_token] looks at the middle segment only, and at it
    only after ['-'] and ['_'] have been replaced by ['+'] and ['/']: two
    tokens of three segments whose middle segments agree after that
    replacement give the same result.  In particular the header and the
    signature have no influence (no signature is verified), and the
    standard and the URL-safe alphabet are interchangeable. *)
Theorem validate_id_token_ignores_header_and_signature (E : env)
    (token token' header header' payload payload' signature signature' : string) :
  split_on "." token = [header; payload; signature] ->
  split_on "." token' = [header'; payload'; signature'] ->
  map_chars Client.translate_table payload = map_chars Client.translate_table payload' ->
  Client.validate_id_token E token = Client.validate_id_token E token'.
Proof.
  intros Hs Hs' Hp.
  rewrite (validate_id_token_three E token header payload signature Hs).
  rewrite (validate_id_token_three E token' header' payload' signature' Hs').
  rewrite <- (length_map_chars Client.translate_table payload).
  rewrite <- (length_map_chars Client.translate_table payload').
  by rewrite Hp.
Qed.

Lemma validate_id_token_ignores_header_and_signature_witness :
  Client.validate_id_token idp "a.e30.c" = Client.validate_id_token idp "forged.e30.".
Proof.
  apply (validate_id_token_ignores_header_and_signature idp "a.e30.c" "forged.e30."
           "a" "forged" "e30" "e30" "c" ""); reflexivity.
Defined.

(** X17.  Whatever the input, [validate_id_token] raises nothing but a
    plain [Exception]: "Invalid ID token format" exactly when the token
    does not split into three segments, and a message that starts with
    "Failed to decode ID token: " for every failure of the decoding or of
    the JSON parser.  A middle segment with a character outside ASCII is
    such a failure, with the message of [b64decode]. *)
Theorem validate_id_token_errors (E : env) (id_token : string) :
  (forall e, Client.validate_id_token E id_token = Raise e ->
     (e = Exception "Invalid ID token format"
      /\ List.length (split_on "." id_token) <> 3%nat)
     \/ (exists msg, e = Exception ("Failed to decode ID token: " ++ msg)
                     /\ List.length (split_on "." id_token) = 3%nat))
  /\ (forall claims, Client.validate_id_token E id_token = Ok claims ->
        List.length (split_on "." id_token) = 3%nat)
  /\ (forall header payload signature,
        split_on "." id_token = [header; payload; signature] ->
        Base64.is_ascii payload = false ->
        Client.validate_id_token E id_token
        = Raise (Exception
            "Failed to decode ID token: string argument should contain only ASCII characters")).
Proof.
  split; [|split].
  - intros e He. unfold Client.validate_id_token in He.
    destruct (Nat.eqb (List.length (split_on "." id_token)) 3) eqn:Hn; cbn [negb] in He.
    + right. apply Nat.eqb_eq in Hn. unfold rcatch in He.
      match type of He with
      | match ?r with _ => _ end = _ => destruct r as [v|e0]
      end; [discriminate|].
      injection He as <-. eauto.
    + left. apply Nat.eqb_neq in Hn. injection He as <-. auto.
  - intros claims Hc. unfold Client.validate_id_token in Hc.
    destruct (Nat.eqb (List.length (split_on "." id_token)) 3) eqn:Hn; cbn [negb] in Hc.
    + by apply Nat.eqb_eq in Hn.
    + discriminate.
  - intros header payload signature Hs Ha.
    rewrite (validate_id_token_three E id_token header payload signature Hs).
    unfold Base64.b64decode.
    rewrite is_ascii_app, is_ascii_translate, Ha. reflexivity.
Qed.

Lemma validate_id_token_errors_witness :
  Client.validate_id_token idp (String "a" (String "." (String (Ascii.ascii_of_nat 233)
                                  (String "." (String "c" EmptyString)))))
  = Raise (Exception
      "Failed to decode ID token: string argument should contain only ASCII characters").
Proof.
  destruct (validate_id_token_errors idp
              (String "a" (String "." (String (Ascii.ascii_of_nat 233)
                 (String "." (String "c" EmptyString)))))) as (_ & _ & Hascii).
  apply (Hascii "a" (String (Ascii.ascii_of_nat 233) EmptyString) "c"); reflexivity.
Defined.

Import Sample5.

(** ** What a completed callback stores *)

(** X18.  A completed callback replaces whatever the auth key held by a
    record of exactly five fields: [access_token], [id_token],
    [refresh_token], [expires_in] and [user_info].  The three optional
    token fields are [None] when the token response lacks them; any other
    field of the token response is not stored. *)
Theorem callback_stores_five_fields (E : env) (c : Client.client) (key : string)
    (w : world) (code : string) tokens access_token user_info (w2 : world) :
  code <> "" -> key <> "return_to" ->
  callback_success E c code w tokens access_token user_info w2 ->
  let field k := match dict_lookup k tokens with Some x => x | None => PNone end in
  let record := [ ("access_token", access_token);
                  ("id_token", field "id_token");
                  ("refresh_token", field "refresh_token");
                  ("expires_in", field "expires_in");
                  ("user_info", user_info) ] in
  session (snd (Flask.auth_callback E (Flask.NextIdentityFlask c key) (Some code) w)) !! key
  = Some (PDict record)
  /\ session (snd (FastAPI.auth_callback E (FastAPI.NextIdentityFastAPI c key)
                     (Some code) w)) !! key
     = Some (PDict record)
  /\ (forall k, dict_lookup k record <> None ->
        k = "access_token" \/ k = "id_token" \/ k = "refresh_token"
        \/ k = "expires_in" \/ k = "user_info").
Proof.
  intros Hne Hkey Hs field record.
  rewrite (flask_callback_success E (Flask.NextIdentityFlask c key) code w tokens
             access_token user_info w2 Hne Hs).
  rewrite (fastapi_callback_success E (FastAPI.NextIdentityFastAPI c key) code w tokens
             access_token user_info w2 Hne Hs).
  simpl. rewrite lookup_delete_ne by congruence. rewrite lookup_insert_eq.
  split; [reflexivity|]. split; [reflexivity|].
  intros k Hk. unfold record in Hk. cbn [dict_lookup] in Hk.
  destruct (String.eqb_spec k "access_token"); [auto|].
  destruct (String.eqb_spec k "id_token"); [auto|].
  destruct (String.eqb_spec k "refresh_token"); [auto|].
  destruct (String.eqb_spec k "expires_in"); [auto|].
  destruct (String.eqb_spec k "user_info"); [auto 6|]. congruence.
Qed.

Lemma callback_stores_five_fields_witness :
  session (snd (Flask.auth_callback idp_rich (Flask.NextIdentityFlask demo_client auth_key)
                  (Some "xyz") signed_in)) !! auth_key
  = Some (PDict [ ("access_token", PStr "tok2"); ("id_token", PNone);
                  ("refresh_token", PNone); ("expires_in", PInt 3600);
                  ("user_info", claims) ]).
Proof.
  destruct (callback_stores_five_fields idp_rich demo_client auth_key signed_in "xyz"
              [ ("access_token", PStr "tok2"); ("token_type", PStr "Bearer");
                ("expires_in", PInt 3600); ("scope", PStr "openid profile email") ]
              (PStr "tok2") claims
              (snd (Client.get_userinfo idp_rich demo_client (PStr "tok2")
                      (snd (Client.exchange_code_for_tokens idp_rich demo_client "xyz"
                              signed_in)))))
    as [Hflask _].
  - discriminate.
  - discriminate.
  - exists (snd (Client.exchange_code_for_tokens idp_rich demo_client "xyz" signed_in)).
    repeat split; vm_compute; reflexivity.
  - exact Hflask.
Defined.

(** ** The authentication state across callback and logout *)

Section AnsweredCallback.



End AnsweredCallback.



